(** * The two example notebooks of docs/examples, as sequential programs

    Source: [src/docs/examples/embeddings/nomic.ipynb], which holds two
    notebooks one after the other: the Nomic embedding example (cells at
    lines 10-206) and the "Recursive Retriever + Document Agents" example
    (cells at lines 281-646).

    The notebooks are glue code: every cell is a short sequence of calls
    into the RAG library, [requests], [pathlib] and the built-ins.  The
    embedding keeps the cells as they are written and runs them in a
    state-and-exception monad over the local machine state (environment
    variables, file system, the log of calls issued, what was displayed).
    Everything the notebooks do not control (the wiki API, the shell
    commands, the document reader, the embedding and LLM services behind
    the library) is a field of [Services], so that every theorem is stated
    for all behaviours of the outside world. *)

From Stdlib Require Import ZArith Ascii String List Bool Lia.
From stdpp Require Import base gmap sets list strings.

Set Warnings "-register-all,-clear-no-such-hyp".

(** ** Python values that cross the program *)

(** A parsed JSON value, as [requests.Response.json()] returns it.  A JSON
    object is a Python [dict]: [JObj] lists its items in iteration order. *)
Inductive Json : Type :=
| JNull
| JBool (b : bool)
| JNum (literal : string)
| JStr (s : string)
| JArr (items : list Json)
| JObj (items : list (string * Json)).

(** Values of the [params] dictionary handed to [requests.get]. *)
Inductive PyVal : Type :=
| PStr (s : string)
| PBool (b : bool).

(** Exceptions.  The first ones are raised by the interpreter on the
    notebook's own expressions; [ExternalError] is whatever an external call
    raises (connection error, authentication error, decoding error, ...). *)
Inductive Exn : Type :=
| KeyError (key : string)
| TypeError
| AttributeError
| StopIteration
| FileExistsError (path : string)
| FileNotFoundError (path : string)
| NotADirectoryError (path : string)
| IsADirectoryError (path : string)
| ExternalError (msg : string).

Inductive Res (A : Type) : Type :=
| Ok (a : A)
| Raise (e : Exn).
Arguments Ok {A} a.
Arguments Raise {A} e.

Definition is_ok {A} (r : Res A) : bool :=
  match r with Ok _ => true | Raise _ => false end.

(** [obj[key]] for a string key. *)
Fixpoint dict_get (items : list (string * Json)) (key : string) : option Json :=
  match items with
  | [] => None
  | (k, v) :: rest => if String.eqb k key then Some v else dict_get rest key
  end.

Definition py_getitem (obj : Json) (key : string) : Res Json :=
  match obj with
  | JObj items =>
      match dict_get items key with
      | Some v => Ok v
      | None => Raise (KeyError key)
      end
  | _ => Raise TypeError
  end.

(** [obj.values()]: only a dict has the attribute. *)
Definition py_values (obj : Json) : Res (list Json) :=
  match obj with
  | JObj items => Ok (map snd items)
  | _ => Raise AttributeError
  end.

(** [next(iter(vals))]. *)
Definition py_next (vals : list Json) : Res Json :=
  match vals with
  | v :: _ => Ok v
  | [] => Raise StopIteration
  end.

(** ** Objects of the RAG library

    The library's objects are opaque to the notebooks; an object is recorded
    as the constructor call that made it, with the arguments the notebook
    passed (an absent keyword argument is [None]). *)

Record Document := mkDocument { doc_text : string; doc_file_path : string }.

Record NodeWithScore := mkNodeWithScore
  { node_id : string; node_text : string; node_score : string }.

Record Response := mkResponse { response_text : string }.

Inductive Reader : Type :=
| SimpleDirectoryReader_dir (input_dir : string)
| SimpleDirectoryReader_files (input_files : list string).

Inductive EmbedModel : Type :=
| NomicEmbedding (api_key model_name query_task_type document_task_type : string).

Inductive LLM : Type :=
| OpenAI (temperature : option Z) (model : string).

Inductive ServiceContext : Type :=
| ServiceContext_from_defaults
    (llm : option LLM) (embed_model : option EmbedModel) (chunk_size : option Z).

Inductive ToolMetadata : Type :=
| mkToolMetadata (name description : string).

Inductive Index : Type :=
| VectorStoreIndex_from_documents
    (documents : list Document) (service_context : ServiceContext)
    (show_progress : option bool)
| SummaryIndex_from_documents
    (documents : list Document) (service_context : ServiceContext)
| VectorStoreIndex_objects
    (objects : list IndexNode) (service_context : ServiceContext)
with IndexNode : Type :=
| mkIndexNode (text index_id : string) (obj : Agent)
with Agent : Type :=
| OpenAIAgent_from_tools (tools : list QueryEngineTool) (llm : LLM) (verbose : bool)
with QueryEngineTool : Type :=
| mkQueryEngineTool (query_engine : QueryEngine) (metadata : ToolMetadata)
with QueryEngine : Type :=
| as_query_engine (index : Index) (similarity_top_k : option Z) (verbose : option bool).

Inductive Retriever : Type :=
| as_retriever (index : Index) (service_context : option ServiceContext)
    (similarity_top_k : option Z).

Definition index_id_of (n : IndexNode) : string :=
  match n with mkIndexNode _ i _ => i end.
Definition obj_of (n : IndexNode) : Agent :=
  match n with mkIndexNode _ _ a => a end.
Definition text_of (n : IndexNode) : string :=
  match n with mkIndexNode t _ _ => t end.
Definition tools_of (a : Agent) : list QueryEngineTool :=
  match a with OpenAIAgent_from_tools ts _ _ => ts end.
Definition tool_name (t : QueryEngineTool) : string :=
  match t with mkQueryEngineTool _ (mkToolMetadata n _) => n end.
Definition tool_engine (t : QueryEngineTool) : QueryEngine :=
  match t with mkQueryEngineTool q _ => q end.
Definition engine_index (q : QueryEngine) : Index :=
  match q with as_query_engine i _ _ => i end.
Definition engine_top_k (q : QueryEngine) : option Z :=
  match q with as_query_engine _ k _ => k end.

(** A call into the library.  A constructor call is named by the object it
    builds. *)
Inductive LibCall : Type :=
| NewEmbedModel (e : EmbedModel)
| NewLLM (l : LLM)
| NewServiceContext (sc : ServiceContext)
| NewIndex (i : Index)
| NewRetriever (r : Retriever)
| NewQueryEngine (q : QueryEngine)
| NewToolMetadata (m : ToolMetadata)
| NewQueryEngineTool (t : QueryEngineTool)
| NewAgent (a : Agent)
| NewIndexNode (n : IndexNode)
| CallRetrieve (r : Retriever) (query : string)
| CallQuery (q : QueryEngine) (query : string)
| CallDisplaySourceNode (n : NodeWithScore) (source_length : Z).

(** ** The local machine *)

(** Paths are the strings the notebook writes; [""] stands for the working
    directory.  No normalisation is modelled, so the theorems about files
    speak of titles without a slash (as all of [wiki_titles] are). *)
Record FS := mkFS { dirs : gset string; files : gmap string string }.

Inductive Event : Type :=
| EvShell (cmd : string)
| EvLogging (call : string)
| EvSetEnv (key value : string)
| EvHttpGet (url : string) (params : list (string * PyVal))
| EvMkdir (path : string)
| EvOpenW (path : string)
| EvWrite (path : string) (data : Json)
| EvLoadData (r : Reader)
| EvLib (c : LibCall)
| EvPrint (s : string).

Inductive Output : Type :=
| OutText (s : string)
| OutSourceNode (n : NodeWithScore) (source_length : Z).

Record State := mkState
  { env : gmap string string;
    fs : FS;
    trace : list Event;
    out : list Output }.

(** ** The outside world *)
Record Services := mkServices
  { (* requests.get(url, params=params).json() *)
    http_get_json : string → list (string * PyVal) → Res Json;
    (* what a [!cmd] line does to the disk; a failing command raises nothing *)
    shell_effect : string → FS → FS;
    (* SimpleDirectoryReader(...).load_data() *)
    load_data : Reader → FS → Res (list Document);
    (* whether a library call fails, given the environment it runs in *)
    lib_raises : gmap string string → LibCall → option Exn;
    (* retriever.retrieve(query) *)
    retrieve_nodes : gmap string string → Retriever → string → Res (list NodeWithScore);
    (* query_engine.query(query) *)
    query_response : gmap string string → QueryEngine → string → Res Response }.

(** ** The monad of cells: state, plus an exception that ends the run *)

Definition M (A : Type) : Type := State → Res A * State.

Definition ret {A} (a : A) : M A := fun st => (Ok a, st).

Definition bind {A B} (m : M A) (f : A → M B) : M B :=
  fun st =>
    match m st with
    | (Ok a, st') => f a st'
    | (Raise e, st') => (Raise e, st')
    end.

Definition raise {A} (e : Exn) : M A := fun st => (Raise e, st).

Definition lift {A} (r : Res A) : M A := fun st => (r, st).

Declare Scope cell_scope.
Delimit Scope cell_scope with cell.
Notation "x <- m ;; k" := (bind m (fun x => k))
  (at level 100, m at next level, right associativity) : cell_scope.
Notation "m ;; k" := (bind m (fun _ => k))
  (at level 100, right associativity) : cell_scope.
Open Scope cell_scope.

Definition emit (ev : Event) : M unit :=
  fun st => (Ok tt, mkState (env st) (fs st) (trace st ++ [ev]) (out st)).

Definition display (o : Output) : M unit :=
  fun st => (Ok tt, mkState (env st) (fs st) (trace st) (out st ++ [o])).

Definition get_fs : M FS := fun st => (Ok (fs st), st).
Definition put_fs (f : FS) : M unit :=
  fun st => (Ok tt, mkState (env st) f (trace st) (out st)).
Definition get_env : M (gmap string string) := fun st => (Ok (env st), st).

(** [for x in l: body(x)] *)
Fixpoint for_each {A} (l : list A) (body : A → M unit) : M unit :=
  match l with
  | [] => ret tt
  | x :: rest => body x ;; for_each rest body
  end.

(** A loop that updates a local variable [acc] in each round. *)
Fixpoint for_fold {A B} (l : list A) (acc : B) (body : B → A → M B) : M B :=
  match l with
  | [] => ret acc
  | x :: rest => acc' <- body acc x ;; for_fold rest acc' body
  end.

(** ** Built-ins and library entry points *)

(** [os.environ[key] = value] *)
Definition os_environ_set (key value : string) : M unit :=
  emit (EvSetEnv key value) ;;
  fun st => (Ok tt, mkState (<[key := value]> (env st)) (fs st) (trace st) (out st)).

(** A [!cmd] line of IPython: the command runs, nothing is raised. *)
Definition shell (svc : Services) (cmd : string) : M unit :=
  emit (EvShell cmd) ;;
  f <- get_fs ;;
  put_fs (shell_effect svc cmd f).

(** [requests.get(url, params=params).json()] *)
Definition requests_get_json (svc : Services) (url : string)
    (params : list (string * PyVal)) : M Json :=
  emit (EvHttpGet url params) ;;
  lift (http_get_json svc url params).

(** The directory part of a path: everything before the last slash. *)
Definition is_slash (c : ascii) : bool := Ascii.eqb c "/"%char.

Fixpoint has_slash (s : string) : bool :=
  match s with
  | EmptyString => false
  | String c rest => is_slash c || has_slash rest
  end.

Fixpoint parent (s : string) : string :=
  match s with
  | EmptyString => EmptyString
  | String c rest => if has_slash rest then String c (parent rest) else EmptyString
  end.

(** [Path(d) / name]: an absolute [name] replaces [d]. *)
Definition path_join (d name : string) : string :=
  match name with
  | String c _ => if is_slash c then name else d +:+ "/" +:+ name
  | EmptyString => d
  end.

Definition is_dir (f : FS) (p : string) : bool :=
  bool_decide (p = "") || bool_decide (p ∈ dirs f).

Definition is_file (f : FS) (p : string) : bool :=
  bool_decide (is_Some (files f !! p)).

(** [Path.exists] *)
Definition path_exists (p : string) : M bool :=
  f <- get_fs ;; ret (is_dir f p || is_file f p).

(** [Path.mkdir(p)], without [parents] and without [exist_ok]. *)
Definition path_mkdir (p : string) : M unit :=
  emit (EvMkdir p) ;;
  f <- get_fs ;;
  if is_dir f p || is_file f p then raise (FileExistsError p)
  else if is_dir f (parent p) then put_fs (mkFS ({[p]} ∪ dirs f) (files f))
  else if is_file f (parent p) then raise (NotADirectoryError p)
  else raise (FileNotFoundError p).

(** [open(p, "w")]: the file is created or truncated. *)
Definition open_w (p : string) : M unit :=
  emit (EvOpenW p) ;;
  f <- get_fs ;;
  if is_dir f p then raise (IsADirectoryError p)
  else if is_dir f (parent p) then put_fs (mkFS (dirs f) (<[p := ""]> (files f)))
  else if is_file f (parent p) then raise (NotADirectoryError p)
  else raise (FileNotFoundError p).

(** [fp.write(data)] on the file just opened at [p]: the text goes after
    what the file holds; anything but a [str] is a [TypeError]. *)
Definition fp_write (p : string) (data : Json) : M unit :=
  emit (EvWrite p data) ;;
  match data with
  | JStr s =>
      f <- get_fs ;;
      put_fs (mkFS (dirs f) (<[p := default "" (files f !! p) +:+ s]> (files f)))
  | _ => raise TypeError
  end.

(** [SimpleDirectoryReader(...).load_data()] *)
Definition reader_load_data (svc : Services) (r : Reader) : M (list Document) :=
  emit (EvLoadData r) ;;
  f <- get_fs ;;
  lift (load_data svc r f).

(** A library call that returns once the library has not raised. *)
Definition lib (svc : Services) (c : LibCall) : M unit :=
  emit (EvLib c) ;;
  e <- get_env ;;
  match lib_raises svc e c with
  | Some x => raise x
  | None => ret tt
  end.

Definition new_embed_model svc (e : EmbedModel) : M EmbedModel :=
  lib svc (NewEmbedModel e) ;; ret e.
Definition new_llm svc (l : LLM) : M LLM :=
  lib svc (NewLLM l) ;; ret l.
Definition new_service_context svc (sc : ServiceContext) : M ServiceContext :=
  lib svc (NewServiceContext sc) ;; ret sc.
Definition new_index svc (i : Index) : M Index :=
  lib svc (NewIndex i) ;; ret i.
Definition new_retriever svc (r : Retriever) : M Retriever :=
  lib svc (NewRetriever r) ;; ret r.
Definition new_query_engine svc (q : QueryEngine) : M QueryEngine :=
  lib svc (NewQueryEngine q) ;; ret q.
Definition new_tool_metadata svc (m : ToolMetadata) : M ToolMetadata :=
  lib svc (NewToolMetadata m) ;; ret m.
Definition new_query_engine_tool svc (t : QueryEngineTool) : M QueryEngineTool :=
  lib svc (NewQueryEngineTool t) ;; ret t.
Definition new_agent svc (a : Agent) : M Agent :=
  lib svc (NewAgent a) ;; ret a.
Definition new_index_node svc (n : IndexNode) : M IndexNode :=
  lib svc (NewIndexNode n) ;; ret n.

(** [retriever.retrieve(query)] *)
Definition retrieve svc (r : Retriever) (query : string) : M (list NodeWithScore) :=
  emit (EvLib (CallRetrieve r query)) ;;
  e <- get_env ;;
  lift (retrieve_nodes svc e r query).

(** [query_engine.query(query)] *)
Definition query svc (q : QueryEngine) (query : string) : M Response :=
  emit (EvLib (CallQuery q query)) ;;
  e <- get_env ;;
  lift (query_response svc e q query).

(** [display_source_node(n, source_length=len)] *)
Definition display_source_node svc (n : NodeWithScore) (len : Z) : M unit :=
  lib svc (CallDisplaySourceNode n len) ;;
  display (OutSourceNode n len).

(** [print(response)] *)
Definition print (r : Response) : M unit :=
  emit (EvPrint (response_text r)) ;;
  display (OutText (response_text r)).

(** [logging.basicConfig(...)], [logging.getLogger().addHandler(...)] *)
Definition logging_call (call : string) : M unit := emit (EvLogging call).

(** [d[key]] on a Python dict held in a local variable. *)
Definition py_dict_get {V} (d : gmap string V) (key : string) : M V :=
  match d !! key with
  | Some v => ret v
  | None => raise (KeyError key)
  end.

(** ** First notebook: Nomic embeddings (source lines 10-206) *)

Definition essay_url : string :=
  "https://raw.githubusercontent.com/run-llama/llama_index/main/docs/examples/data/paul_graham/paul_graham_essay.txt".

Definition paul_query : string := "What software did Paul write?".

(** The cells up to the retriever (source lines 10-127). *)
Definition notebook1_index (svc : Services) : M Retriever :=
  os_environ_set "OPENAI_API_KEY" "<OPENAI_API_KEY>" ;;
  logging_call "logging.basicConfig(stream=sys.stdout, level=logging.INFO)" ;;
  logging_call "logging.getLogger().addHandler(logging.StreamHandler(stream=sys.stdout))" ;;
  shell svc "mkdir -p 'data/paul_graham/'" ;;
  shell svc ("wget '" +:+ essay_url +:+ "' -O 'data/paul_graham/paul_graham_essay.txt'") ;;
  documents <- reader_load_data svc (SimpleDirectoryReader_dir "./data/paul_graham/") ;;
  let nomic_api_key := "<NOMIC_API_KEY>" in
  embed_model <- new_embed_model svc
    (NomicEmbedding nomic_api_key "nomic-embed-text-v1" "search_query" "search_document") ;;
  service_context <- new_service_context svc
    (ServiceContext_from_defaults None (Some embed_model) (Some 1024%Z)) ;;
  index <- new_index svc
    (VectorStoreIndex_from_documents documents service_context (Some true)) ;;
  new_retriever svc (as_retriever index (Some service_context) (Some 2%Z)).

(** The retrieval and display cells (source lines 137-205). *)
Definition notebook1_retrieve (svc : Services) (search_query_retriever : Retriever)
    : M (list NodeWithScore) :=
  let retriever_nomic := search_query_retriever in
  retrieved_nodes_nomic <- retrieve svc retriever_nomic paul_query ;;
  for_each retrieved_nodes_nomic (fun n => display_source_node svc n 2000%Z) ;;
  ret retrieved_nodes_nomic.

Definition notebook1 (svc : Services) : M (list NodeWithScore) :=
  search_query_retriever <- notebook1_index svc ;;
  notebook1_retrieve svc search_query_retriever.

(** ** Second notebook: recursive retriever and document agents
       (source lines 281-646) *)

Definition wiki_titles : list string :=
  ["Toronto"; "Seattle"; "Chicago"; "Boston"; "Houston"].

Definition wiki_url : string := "https://en.wikipedia.org/w/api.php".

Definition wiki_params (title : string) : list (string * PyVal) :=
  [("action", PStr "query"); ("format", PStr "json"); ("titles", PStr title);
   ("prop", PStr "extracts"); ("explaintext", PBool true)].

(** [next(iter(response["query"]["pages"].values()))["extract"]] *)
Definition first_page_extract (response : Json) : Res Json :=
  match py_getitem response "query" with
  | Raise e => Raise e
  | Ok q =>
      match py_getitem q "pages" with
      | Raise e => Raise e
      | Ok pages =>
          match py_values pages with
          | Raise e => Raise e
          | Ok vals =>
              match py_next vals with
              | Raise e => Raise e
              | Ok page => py_getitem page "extract"
              end
          end
      end
  end.

(** The file the download loop writes for a title, and the file name the
    loading loop reads. *)
Definition title_path (title : string) : string :=
  path_join "data" (title +:+ ".txt").

Definition title_file (title : string) : string :=
  "data/" +:+ title +:+ ".txt".

(** Body of the download loop (source lines 323-343). *)
Definition download_title (svc : Services) (title : string) : M unit :=
  response <- requests_get_json svc wiki_url (wiki_params title) ;;
  wiki_text <- lift (first_page_extract response) ;;
  let data_path := "data" in
  e <- path_exists data_path ;;
  (if e then ret tt else path_mkdir data_path) ;;
  let p := path_join data_path (title +:+ ".txt") in
  open_w p ;;
  fp_write p wiki_text.

Definition download_loop (svc : Services) (titles : list string) : M unit :=
  for_each titles (download_title svc).

(** The loading loop (source lines 354-358). *)
Definition load_title (svc : Services) (city_docs : gmap string (list Document))
    (wiki_title : string) : M (gmap string (list Document)) :=
  docs <- reader_load_data svc (SimpleDirectoryReader_files [title_file wiki_title]) ;;
  ret (<[wiki_title := docs]> city_docs).

Definition load_loop (svc : Services) (titles : list string)
    : M (gmap string (list Document)) :=
  for_fold titles ∅ (load_title svc).

(** Body of the agent-building loop (source lines 420-464). *)
Definition vector_tool_description (wiki_title : string) : string :=
  "Useful for retrieving specific context from " +:+ wiki_title.

Definition summary_tool_description (wiki_title : string) : string :=
  "Useful for summarization questions related to" +:+ " " +:+ wiki_title.

Definition build_agent (svc : Services) (city_docs : gmap string (list Document))
    (service_context : ServiceContext) (agents : gmap string Agent)
    (wiki_title : string) : M (gmap string Agent) :=
  docs <- py_dict_get city_docs wiki_title ;;
  vector_index <- new_index svc
    (VectorStoreIndex_from_documents docs service_context None) ;;
  docs' <- py_dict_get city_docs wiki_title ;;
  summary_index <- new_index svc (SummaryIndex_from_documents docs' service_context) ;;
  vector_query_engine <- new_query_engine svc (as_query_engine vector_index None None) ;;
  list_query_engine <- new_query_engine svc (as_query_engine summary_index None None) ;;
  vector_meta <- new_tool_metadata svc
    (mkToolMetadata "vector_tool" (vector_tool_description wiki_title)) ;;
  vector_tool <- new_query_engine_tool svc
    (mkQueryEngineTool vector_query_engine vector_meta) ;;
  summary_meta <- new_tool_metadata svc
    (mkToolMetadata "summary_tool" (summary_tool_description wiki_title)) ;;
  summary_tool <- new_query_engine_tool svc
    (mkQueryEngineTool list_query_engine summary_meta) ;;
  let query_engine_tools := [vector_tool; summary_tool] in
  function_llm <- new_llm svc (OpenAI None "gpt-3.5-turbo-0613") ;;
  agent <- new_agent svc (OpenAIAgent_from_tools query_engine_tools function_llm true) ;;
  ret (<[wiki_title := agent]> agents).

Definition agents_loop (svc : Services) (titles : list string)
    (city_docs : gmap string (list Document)) (service_context : ServiceContext)
    : M (gmap string Agent) :=
  for_fold titles ∅ (build_agent svc city_docs service_context).

(** Body of the loop over the top-level nodes (source lines 485-497). *)
Definition newline : string := String (ascii_of_nat 10) EmptyString.

Definition wiki_summary (wiki_title : string) : string :=
  "This content contains Wikipedia articles about " +:+ wiki_title +:+ ". Use"
  +:+ " this index if you need to lookup specific facts about"
  +:+ " " +:+ wiki_title +:+ "." +:+ newline
  +:+ "Do not use this index if you want to analyze"
  +:+ " multiple cities.".

Definition build_object (svc : Services) (agents : gmap string Agent)
    (objects : list IndexNode) (wiki_title : string) : M (list IndexNode) :=
  agent <- py_dict_get agents wiki_title ;;
  node <- new_index_node svc (mkIndexNode (wiki_summary wiki_title) wiki_title agent) ;;
  ret (objects ++ [node]).

Definition objects_loop (svc : Services) (titles : list string)
    (agents : gmap string Agent) : M (list IndexNode) :=
  for_fold titles [] (build_object svc agents).

(** The top-level retriever cell (source lines 508-511). *)
Definition top_level (svc : Services) (objects : list IndexNode)
    (service_context : ServiceContext) : M QueryEngine :=
  vector_index <- new_index svc (VectorStoreIndex_objects objects service_context) ;;
  new_query_engine svc (as_query_engine vector_index (Some 1%Z) (Some true)).

Definition boston_query : string := "Tell me about the sports teams in Boston".
Definition houston_query : string := "Tell me about the sports teams in Houston".
Definition chicago_query : string :=
  "Give me a summary on all the positive aspects of Chicago".

(** One example query and the [print] cell that follows it. *)
Definition run_query (svc : Services) (query_engine : QueryEngine) (q : string) : M unit :=
  response <- query svc query_engine q ;;
  print response.

(** The variables a full run of the second notebook leaves in the session. *)
Record Session := mkSession
  { s_city_docs : gmap string (list Document);
    s_agents : gmap string Agent;
    s_objects : list IndexNode;
    s_query_engine : QueryEngine }.

Definition notebook2 (svc : Services) : M Session :=
  shell svc "pip install llama-index" ;;
  download_loop svc wiki_titles ;;
  city_docs <- load_loop svc wiki_titles ;;
  os_environ_set "OPENAI_API_KEY" "sk-..." ;;
  llm <- new_llm svc (OpenAI (Some 0%Z) "gpt-3.5-turbo") ;;
  service_context <- new_service_context svc
    (ServiceContext_from_defaults (Some llm) None None) ;;
  agents <- agents_loop svc wiki_titles city_docs service_context ;;
  objects <- objects_loop svc wiki_titles agents ;;
  query_engine <- top_level svc objects service_context ;;
  run_query svc query_engine boston_query ;;
  run_query svc query_engine houston_query ;;
  run_query svc query_engine chicago_query ;;
  ret (mkSession city_docs agents objects query_engine).

(** ** Concrete worlds, to run the notebooks on *)

Fixpoint param_title (params : list (string * PyVal)) : string :=
  match params with
  | [] => ""
  | (k, PStr v) :: rest => if String.eqb k "titles" then v else param_title rest
  | _ :: rest => param_title rest
  end.

(** A reply of the wiki API with one page. *)
Definition wiki_reply (title : string) : Json :=
  JObj [("batchcomplete", JStr "");
        ("query", JObj [("pages", JObj [("64646", JObj [("pageid", JNum "64646");
            ("title", JStr title); ("extract", JStr ("About " +:+ title))])])])].

(** A reader that yields one document per file it is given. *)
Definition read_files (r : Reader) (f : FS) : Res (list Document) :=
  match r with
  | SimpleDirectoryReader_files [p] =>
      match files f !! p with
      | Some c => Ok [mkDocument c p]
      | None => Raise (ExternalError "ValueError: file does not exist")
      end
  | _ => Ok [mkDocument "What I Worked On" "paul_graham_essay.txt"]
  end.

(** Every external call succeeds. *)
Definition svc_ok : Services :=
  {| http_get_json := fun _ params => Ok (wiki_reply (param_title params));
     shell_effect := fun _ f => f;
     load_data := read_files;
     lib_raises := fun _ _ => None;
     retrieve_nodes := fun _ _ _ => Ok [mkNodeWithScore "9058e2a4" "Viaweb" "0.61"];
     query_response := fun _ _ q => Ok (mkResponse ("Answer A: " +:+ q)) |}.

(** The same world, with other answers from the embedding and LLM services. *)
Definition svc_other : Services :=
  {| http_get_json := http_get_json svc_ok;
     shell_effect := shell_effect svc_ok;
     load_data := load_data svc_ok;
     lib_raises := lib_raises svc_ok;
     retrieve_nodes := fun _ _ _ => Ok [mkNodeWithScore "cc1c29ab" "Fortran" "0.60"];
     query_response := fun _ _ q => Ok (mkResponse ("Answer B: " +:+ q)) |}.

(** The wiki API is unreachable for Chicago, and retrieval is refused. *)
Definition svc_down : Services :=
  {| http_get_json := fun _ params =>
       if String.eqb (param_title params) "Chicago"
       then Raise (ExternalError "ConnectionError")
       else Ok (wiki_reply (param_title params));
     shell_effect := fun _ f => f;
     load_data := read_files;
     lib_raises := fun _ _ => None;
     retrieve_nodes := fun _ _ _ => Raise (ExternalError "401 Unauthorized");
     query_response := fun _ _ q => Ok (mkResponse ("Answer A: " +:+ q)) |}.

Definition st0 : State := mkState ∅ (mkFS ∅ ∅) [] [].

(** What the download loop gets for a title: the reply, then the extract. *)
Definition fetch_extract (svc : Services) (title : string) : Res Json :=
  match http_get_json svc wiki_url (wiki_params title) with
  | Ok response => first_page_extract response
  | Raise e => Raise e
  end.

Definition add_events (st : State) (evs : list Event) : State :=
  mkState (env st) (fs st) (trace st ++ evs) (out st).

Definition with_fs (st : State) (f : FS) : State :=
  mkState (env st) f (trace st) (out st).

(** The requests of a log, in the order they were issued. *)
Definition http_requests (evs : list Event) : list (string * list (string * PyVal)) :=
  omap (λ ev, match ev with EvHttpGet u p => Some (u, p) | _ => None end) evs.

(** ** Phases of a run

    The overview of the specification names five steps: (1) set API
    credentials, (2) load or fetch documents, (3) construct the embedding
    model and the index, (4) build a retriever or query engine, (5) run
    queries and print.  Every logged call belongs to one of them, or is
    set-up (package installation, logging configuration). *)
Inductive Phase : Type := Setup | Credentials | Load | Construct | Build | Run.

Definition phase_of (ev : Event) : Phase :=
  match ev with
  | EvShell cmd => if String.prefix "pip " cmd then Setup else Load
  | EvLogging _ => Setup
  | EvSetEnv _ _ => Credentials
  | EvHttpGet _ _ | EvMkdir _ | EvOpenW _ | EvWrite _ _ | EvLoadData _ => Load
  | EvLib (NewEmbedModel _) | EvLib (NewLLM _) | EvLib (NewServiceContext _)
  | EvLib (NewIndex _) => Construct
  | EvLib (NewRetriever _) | EvLib (NewQueryEngine _) | EvLib (NewToolMetadata _)
  | EvLib (NewQueryEngineTool _) | EvLib (NewAgent _) | EvLib (NewIndexNode _) => Build
  | EvLib (CallRetrieve _ _) | EvLib (CallQuery _ _)
  | EvLib (CallDisplaySourceNode _ _) | EvPrint _ => Run
  end.

(** The order the specification gives. *)
Definition spec_rank (ev : Event) : option nat :=
  match phase_of ev with
  | Setup => None
  | Credentials => Some 1
  | Load => Some 2
  | Construct => Some 3
  | Build => Some 4
  | Run => Some 5
  end.

(** The order of the second notebook: documents first, then the credential,
    then the objects of the library (indexes and query engines alternate, one
    title after the other), then the queries. *)
Definition notebook2_rank (ev : Event) : option nat :=
  match phase_of ev with
  | Setup => None
  | Load => Some 1
  | Credentials => Some 2
  | Construct | Build => Some 3
  | Run => Some 4
  end.

Definition ranks (rank : Event → option nat) (evs : list Event) : list nat :=
  omap rank evs.

Fixpoint nondecreasing (l : list nat) : bool :=
  match l with
  | a :: rest =>
      match rest with
      | b :: _ => (a <=? b) && nondecreasing rest
      | [] => true
      end
  | [] => true
  end.

(** No event of a later step is logged before an event of an earlier one. *)
Definition in_order (rank : Event → option nat) (evs : list Event) : Prop :=
  nondecreasing (ranks rank evs) = true.

(** ** Channels of credentials *)

(** The API key a library call receives as an argument, if any. *)
Definition api_key_argument (ev : Event) : option string :=
  match ev with
  | EvLib (NewEmbedModel (NomicEmbedding api_key _ _ _)) => Some api_key
  | _ => None
  end.

Definition credentials_by_argument (evs : list Event) : list string :=
  omap api_key_argument evs.

(** The environment variables a run writes. *)
Definition env_write (ev : Event) : option (string * string) :=
  match ev with
  | EvSetEnv k v => Some (k, v)
  | _ => None
  end.

Definition env_writes (evs : list Event) : list (string * string) :=
  omap env_write evs.

(** The environment is the only channel: no call receives a key. *)
Definition env_is_only_channel (evs : list Event) : Prop :=
  credentials_by_argument evs = [].

(** ** What the loops are expected to build *)

(** The agent of one title: two tools over the title's documents. *)
Definition document_agent (wiki_title : string) (docs : list Document)
    (service_context : ServiceContext) : Agent :=
  OpenAIAgent_from_tools
    [mkQueryEngineTool
       (as_query_engine (VectorStoreIndex_from_documents docs service_context None)
          None None)
       (mkToolMetadata "vector_tool" (vector_tool_description wiki_title));
     mkQueryEngineTool
       (as_query_engine (SummaryIndex_from_documents docs service_context) None None)
       (mkToolMetadata "summary_tool" (summary_tool_description wiki_title))]
    (OpenAI None "gpt-3.5-turbo-0613") true.

(** The retriever behind a query engine is library code that the notebooks
    only configure: [retrieved q query] stands for the nodes it hands to the
    query engine [q], and [respects_top_k] is the one property of it the
    notebooks rely on, that [similarity_top_k] bounds their number. *)
Definition respects_top_k (retrieved : QueryEngine → string → list IndexNode) : Prop :=
  ∀ q query k, engine_top_k q = Some k → length (retrieved q query) ≤ Z.to_nat k.

(** The document agents a top-level query is passed on to. *)
Definition routed_agents (retrieved : QueryEngine → string → list IndexNode)
    (q : QueryEngine) (query : string) : list Agent :=
  obj_of <$> retrieved q query.

(** A retriever that ranks the objects of the index as they are and cuts
    after [similarity_top_k] (two when it is not given). *)
Definition first_k_retriever (q : QueryEngine) (query : string) : list IndexNode :=
  match engine_index q with
  | VectorStoreIndex_objects objects _ =>
      take (Z.to_nat (default 2%Z (engine_top_k q))) objects
  | _ => []
  end.

(** Two worlds that differ at most in what the embedding and LLM services
    answer. *)
Definition same_local_world (a b : Services) : Prop :=
  http_get_json a = http_get_json b ∧ shell_effect a = shell_effect b ∧
  load_data a = load_data b ∧ lib_raises a = lib_raises b.

(** The value of a result, or [d] when it is an exception. *)
Definition value_or {A} (d : A) (r : Res A) : A :=
  match r with Ok a => a | Raise _ => d end.

(** Documents, service context and agents as a good run of the earlier
    cells leaves them. *)
Definition city_docs_ok : gmap string (list Document) :=
  list_to_map ((λ t, (t, [mkDocument ("About " +:+ t) (title_file t)])) <$> wiki_titles).

Definition service_context_ok : ServiceContext :=
  ServiceContext_from_defaults (Some (OpenAI (Some 0%Z) "gpt-3.5-turbo")) None None.

Definition agents_ok : gmap string Agent :=
  list_to_map
    ((λ t, (t, document_agent t [mkDocument ("About " +:+ t) (title_file t)]
                 service_context_ok)) <$> wiki_titles).

(** ** Relations between the state before and after a computation *)

(** [steps R m]: every run of [m], whether it returns or raises, takes the
    state along [R]. *)
Definition steps {A} (R : relation State) (m : M A) : Prop :=
  ∀ st, R st (m st).2.

(** [appends p]: the log grows by events that all satisfy [p]. *)
Definition appends (p : Event → Prop) : relation State :=
  λ st st', ∃ evs, trace st' = trace st ++ evs ∧ Forall p evs.

(** [quiet p]: the environment is left as it is and the log grows by events
    that all satisfy [p].  Every call of the notebooks but the assignment to
    [os.environ] is quiet. *)
Definition quiet (p : Event → Prop) : relation State :=
  λ st st', env st' = env st ∧ appends p st st'.

(** Ranks of the events of a log: all at one rank, or in order between two
    ranks. *)
Definition at_rank (rank : Event → option nat) (k : nat) (ev : Event) : Prop :=
  ∀ r, rank ev = Some r → r = k.

(** The log grows by events that are in order and whose ranks lie between
    [lo] and [hi]. *)
Definition staged (rank : Event → option nat) (lo hi : nat) : relation State :=
  λ st st', ∃ evs, trace st' = trace st ++ evs ∧ in_order rank evs ∧
                   Forall (λ r, lo ≤ r ≤ hi) (ranks rank evs).

(** What an event may do with credentials. *)
Definition writes_only (kv : string * string) (ev : Event) : Prop :=
  ∀ x, env_write ev = Some x → x = kv.

Definition key_arguments_in (keys : list string) (ev : Event) : Prop :=
  ∀ key, api_key_argument ev = Some key → key ∈ keys.

Definition channels (kv : string * string) (keys : list string) (ev : Event) : Prop :=
  writes_only kv ev ∧ key_arguments_in keys ev.

(** An event that neither writes the environment nor hands over a key. *)
Definition plain (ev : Event) : Prop :=
  env_write ev = None ∧ api_key_argument ev = None.

(** Stand-ins for the objects of a run that raised. *)
Definition no_service_context : ServiceContext :=
  ServiceContext_from_defaults None None None.

Definition no_retriever : Retriever :=
  as_retriever (VectorStoreIndex_objects [] no_service_context) None None.

Definition no_query_engine : QueryEngine :=
  as_query_engine (VectorStoreIndex_objects [] no_service_context) None None.

Definition no_session : Session := mkSession ∅ ∅ [] no_query_engine.

(** ** Further notions used below *)

(** Whether a JSON value is a [str]. *)
Definition is_str (v : Json) : bool :=
  match v with JStr _ => true | _ => false end.

(** The exceptions the expression
    [next(iter(response["query"]["pages"].values()))["extract"]] can raise. *)
Definition extraction_errors : list Exn :=
  [KeyError "query"; KeyError "pages"; KeyError "extract";
   TypeError; AttributeError; StopIteration].

(** [only_log]: nothing but the log changes. *)
Definition only_log : relation State :=
  λ st st', env st' = env st ∧ fs st' = fs st ∧ out st' = out st.

(** [raises_only P m]: whatever [m] raises satisfies [P]. *)
Definition raises_only {A} (P : Exn → Prop) (m : M A) : Prop :=
  ∀ st e st', m st = (Raise e, st') → P e.

(** An exception that some library call raises in the world [svc]. *)
Definition from_library (svc : Services) (e : Exn) : Prop :=
  ∃ environ c, lib_raises svc environ c = Some e.

(** What [display_source_node] shows for the nodes of a retrieval. *)
Definition displayed (nodes : list NodeWithScore) : list Output :=
  (λ n, OutSourceNode n 2000%Z) <$> nodes.

(** The retriever the first notebook builds over [documents]. *)
Definition nomic_embed_model : EmbedModel :=
  NomicEmbedding "<NOMIC_API_KEY>" "nomic-embed-text-v1" "search_query" "search_document".

Definition nomic_service_context : ServiceContext :=
  ServiceContext_from_defaults None (Some nomic_embed_model) (Some 1024%Z).

Definition nomic_retriever (documents : list Document) : Retriever :=
  as_retriever
    (VectorStoreIndex_from_documents documents nomic_service_context (Some true))
    (Some nomic_service_context) (Some 2%Z).

(** The disk as the two shell lines of the first notebook leave it. *)
Definition essay_disk (svc : Services) (f : FS) : FS :=
  shell_effect svc
    ("wget '" +:+ essay_url +:+ "' -O 'data/paul_graham/paul_graham_essay.txt'")
    (shell_effect svc "mkdir -p 'data/paul_graham/'" f).

(** A world whose wiki API answers with a page whose extract is [null]. *)
Definition svc_null : Services :=
  {| http_get_json := fun _ _ =>
       Ok (JObj [("query", JObj [("pages", JObj [("1", JObj [("extract", JNull)])])])]);
     shell_effect := fun _ f => f;
     load_data := read_files;
     lib_raises := fun _ _ => None;
     retrieve_nodes := retrieve_nodes svc_ok;
     query_response := query_response svc_ok |}.

(** A disk that already holds a file for Boston. *)
Definition st_old : State :=
  mkState ∅ (mkFS {["data"]} {["data/Boston.txt" := "an earlier download"]}) [] [].

(** A disk on which [data] is a regular file. *)
Definition st_data_file : State :=
  mkState ∅ (mkFS ∅ {["data" := "not a directory"]}) [] [].

(** A world in which building an index fails once the key is in the
    environment (as the provider rejects the placeholder key). *)
Definition svc_rejects : Services :=
  {| http_get_json := http_get_json svc_ok;
     shell_effect := shell_effect svc_ok;
     load_data := load_data svc_ok;
     lib_raises := fun _ c =>
       match c with
       | NewIndex _ => Some (ExternalError "AuthenticationError")
       | _ => None
       end;
     retrieve_nodes := retrieve_nodes svc_ok;
     query_response := query_response svc_ok |}.

(** An exception that an external call raises in the world [svc]: the wiki
    API, the document reader, a library call, retrieval or a query. *)
Definition external_failure (svc : Services) (e : Exn) : Prop :=
  (∃ url params, http_get_json svc url params = Raise e) ∨
  (∃ r f, load_data svc r f = Raise e) ∨
  from_library svc e ∨
  (∃ environ r q, retrieve_nodes svc environ r q = Raise e) ∨
  (∃ environ q question, query_response svc environ q question = Raise e).

(** The errors [open(path, "w")] raises on [path]. *)
Definition open_errors (path : string) : list Exn :=
  [IsADirectoryError path; NotADirectoryError path; FileNotFoundError path].

(** What the second notebook's own code can raise besides what the external
    calls raise: the errors of the extraction expression and of [fp.write],
    and the errors of [open] on the file of a title. *)
Definition own_failure (e : Exn) : Prop :=
  e ∈ extraction_errors ∨ ∃ title, title ∈ wiki_titles ∧ e ∈ open_errors (title_path title).

(** * Proofs *)

(** ** The monad *)

Lemma bind_ok_inv {A B} (m : M A) (f : A → M B) st b st' :
  bind m f st = (Ok b, st') →
  ∃ a st1, m st = (Ok a, st1) ∧ f a st1 = (Ok b, st').
Proof.
  unfold bind. destruct (m st) as [[a|e] st1]; intros H; [eauto | discriminate].
Qed.

Lemma bind_ok {A B} (m : M A) (f : A → M B) st a st1 :
  m st = (Ok a, st1) → bind m f st = f a st1.
Proof. unfold bind. by intros ->. Qed.

Lemma bind_raise {A B} (m : M A) (f : A → M B) st e st1 :
  m st = (Raise e, st1) → bind m f st = (Raise e, st1).
Proof. unfold bind. by intros ->. Qed.

Lemma for_each_app {A} (l1 l2 : list A) (body : A → M unit) st st1 :
  for_each l1 body st = (Ok tt, st1) →
  for_each (l1 ++ l2) body st = for_each l2 body st1.
Proof.
  revert st. induction l1 as [|x l1 IH]; intros st H; simpl in *.
  - unfold ret in H. by simplify_eq.
  - apply bind_ok_inv in H as ([] & s & Hx & Hl). rewrite (bind_ok _ _ _ _ _ Hx). auto.
Qed.

(** ** Strings and paths *)

Lemma append_cons c (a b : string) : String c a +:+ b = String c (a +:+ b).
Proof. reflexivity. Qed.

Lemma append_length (a b : string) :
  String.length (a +:+ b) = (String.length a + String.length b)%nat.
Proof.
  induction a as [|c a IH]; [reflexivity|].
  rewrite append_cons. simpl. by rewrite IH.
Qed.

Lemma append_inj_tail (a b s : string) : a +:+ s = b +:+ s → a = b.
Proof.
  revert b. induction a as [|c a IH]; intros [|c' b] H; [done|..].
  - apply (f_equal String.length) in H. rewrite !append_length in H. simpl in H. lia.
  - apply (f_equal String.length) in H. rewrite !append_length in H. simpl in H. lia.
  - rewrite !append_cons in H. injection H as -> H. f_equal. by apply IH.
Qed.

Lemma title_file_inj (t1 t2 : string) : title_file t1 = title_file t2 → t1 = t2.
Proof.
  unfold title_file. intros H. apply (inj (String.append "data/")) in H.
  by apply append_inj_tail in H.
Qed.

Lemma has_slash_app (a b : string) : has_slash (a +:+ b) = has_slash a || has_slash b.
Proof.
  induction a as [|c a IH]; [reflexivity|].
  rewrite append_cons. simpl. rewrite IH. by rewrite orb_assoc.
Qed.

Lemma title_path_file (t : string) : has_slash t = false → title_path t = title_file t.
Proof.
  unfold title_path, title_file, path_join. intros H.
  destruct t as [|c t]; [reflexivity|].
  rewrite append_cons. simpl in H. apply orb_false_iff in H as [-> _]. reflexivity.
Qed.

Lemma parent_title_file (t : string) : has_slash t = false → parent (title_file t) = "data".
Proof.
  intros H. unfold title_file.
  assert (Hs : has_slash (t +:+ ".txt") = false).
  { rewrite has_slash_app, H. reflexivity. }
  change (parent (String "d" (String "a" (String "t" (String "a"
            (String "/" (t +:+ ".txt")))))) = "data").
  simpl. rewrite Hs. reflexivity.
Qed.

Lemma title_file_not_data (t : string) : title_file t ≠ "data".
Proof. unfold title_file. intros H. discriminate H. Qed.

Lemma title_file_not_cwd (t : string) : title_file t ≠ "".
Proof. unfold title_file. intros H. discriminate H. Qed.

(** ** File-system steps *)

Lemma path_exists_run p st :
  path_exists p st = (Ok (is_dir (fs st) p || is_file (fs st) p), st).
Proof. reflexivity. Qed.

Lemma path_mkdir_ok_inv p st st' :
  path_mkdir p st = (Ok tt, st') →
  st' = with_fs (add_events st [EvMkdir p]) (mkFS ({[p]} ∪ dirs (fs st)) (files (fs st))).
Proof.
  unfold path_mkdir, bind, emit, get_fs, put_fs, raise. cbn [fs env trace out].
  repeat case_match; intros; simplify_eq; reflexivity.
Qed.

Lemma open_w_ok_inv p st st' :
  open_w p st = (Ok tt, st') →
  is_dir (fs st) p = false ∧ is_dir (fs st) (parent p) = true ∧
  st' = with_fs (add_events st [EvOpenW p]) (mkFS (dirs (fs st)) (<[p := ""]> (files (fs st)))).
Proof.
  unfold open_w, bind, emit, get_fs, put_fs, raise. cbn [fs env trace out].
  repeat case_match; intros; simplify_eq; auto.
Qed.

Lemma open_w_ok p st :
  is_dir (fs st) p = false → is_dir (fs st) (parent p) = true →
  open_w p st =
    (Ok tt, with_fs (add_events st [EvOpenW p])
              (mkFS (dirs (fs st)) (<[p := ""]> (files (fs st))))).
Proof.
  intros H1 H2. unfold open_w, bind, emit, get_fs, put_fs, raise. cbn [fs env trace out].
  rewrite H1, H2. reflexivity.
Qed.

Lemma fp_write_ok_inv p data st st' :
  fp_write p data st = (Ok tt, st') →
  ∃ s, data = JStr s ∧
    st' = with_fs (add_events st [EvWrite p data])
            (mkFS (dirs (fs st))
               (<[p := default "" (files (fs st) !! p) +:+ s]> (files (fs st)))).
Proof.
  unfold fp_write, bind, emit, get_fs, put_fs, raise. cbn [fs env trace out].
  destruct data; intros; simplify_eq; eauto.
Qed.

Lemma fp_write_str p s st :
  fp_write p (JStr s) st =
    (Ok tt, with_fs (add_events st [EvWrite p (JStr s)])
              (mkFS (dirs (fs st))
                 (<[p := default "" (files (fs st) !! p) +:+ s]> (files (fs st))))).
Proof. reflexivity. Qed.

Lemma requests_get_json_run svc url params st :
  requests_get_json svc url params st =
    (http_get_json svc url params, add_events st [EvHttpGet url params]).
Proof. reflexivity. Qed.

Lemma lift_run {A} (r : Res A) st : lift r st = (r, st).
Proof. reflexivity. Qed.

Lemma is_dir_data (f : FS) : is_dir f "data" = bool_decide ("data" ∈ dirs f).
Proof. reflexivity. Qed.

Lemma is_dir_title_file (f : FS) t :
  is_dir f (title_file t) = bool_decide (title_file t ∈ dirs f).
Proof. reflexivity. Qed.

(** ** The download loop *)

Lemma download_title_ok svc t st st' :
  has_slash t = false →
  download_title svc t st = (Ok tt, st') →
  ∃ response text mk,
    http_get_json svc wiki_url (wiki_params t) = Ok response ∧
    first_page_extract response = Ok (JStr text) ∧
    env st' = env st ∧ out st' = out st ∧
    dirs (fs st') = {["data"]} ∪ dirs (fs st) ∧
    files (fs st') = <[title_file t := text]> (files (fs st)) ∧
    (title_file t ∉ dirs (fs st)) ∧
    (mk = [] ∨ mk = [EvMkdir "data"]) ∧
    trace st' = trace st ++ [EvHttpGet wiki_url (wiki_params t)] ++ mk ++
                [EvOpenW (title_file t); EvWrite (title_file t) (JStr text)].
Proof.
  intros Hs. unfold download_title. fold (title_path t). rewrite (title_path_file t Hs).
  intros H.
  apply bind_ok_inv in H as (response & s1 & Hget & H).
  rewrite requests_get_json_run in Hget. injection Hget as Hget <-.
  apply bind_ok_inv in H as (wiki_text & s2 & Hex & H).
  rewrite lift_run in Hex. injection Hex as Hex <-.
  apply bind_ok_inv in H as (e & s3 & He & H).
  rewrite path_exists_run in He. injection He as <- <-.
  apply bind_ok_inv in H as ([] & s4 & Hmk & H).
  apply bind_ok_inv in H as ([] & s5 & Hopen & Hwrite).
  apply open_w_ok_inv in Hopen as (Hnd & Hpar & ->).
  apply fp_write_ok_inv in Hwrite as (text & -> & ->).
  rewrite parent_title_file in Hpar by done. rewrite is_dir_data in Hpar.
  apply bool_decide_eq_true in Hpar.
  rewrite is_dir_title_file in Hnd. apply bool_decide_eq_false in Hnd.
  exists response, text.
  destruct (is_dir (fs st) "data" || is_file (fs st) "data") eqn:Hexists.
  - unfold ret in Hmk. injection Hmk as <-. exists [].
    cbn [fs env trace out add_events with_fs dirs files] in *.
    rewrite lookup_insert_eq, insert_insert_eq. simpl default.
    repeat split; auto.
    + apply set_eq. intros x. rewrite elem_of_union, elem_of_singleton. naive_solver.
    + by rewrite <- !app_assoc.
  - apply path_mkdir_ok_inv in Hmk as ->. exists [EvMkdir "data"].
    cbn [fs env trace out add_events with_fs dirs files] in *.
    rewrite lookup_insert_eq, insert_insert_eq. simpl default.
    repeat split; auto.
    + set_solver.
    + by rewrite <- !app_assoc.
Qed.

Lemma http_requests_app evs1 evs2 :
  http_requests (evs1 ++ evs2) = http_requests evs1 ++ http_requests evs2.
Proof. apply omap_app. Qed.

Lemma download_loop_ok svc titles :
  Forall (λ t, has_slash t = false) titles →
  ∀ st st', download_loop svc titles st = (Ok tt, st') →
    env st' = env st ∧ out st' = out st ∧
    dirs (fs st') = match titles with [] => dirs (fs st) | _ => {["data"]} ∪ dirs (fs st) end ∧
    (∀ t, t ∈ titles → ∃ response text,
        http_get_json svc wiki_url (wiki_params t) = Ok response ∧
        first_page_extract response = Ok (JStr text) ∧
        files (fs st') !! title_file t = Some text ∧
        title_file t ∉ dirs (fs st')) ∧
    (∀ p, p ∉ title_file <$> titles → files (fs st') !! p = files (fs st) !! p) ∧
    ∃ evs, trace st' = trace st ++ evs ∧
           http_requests evs = (λ t, (wiki_url, wiki_params t)) <$> titles.
Proof.
  unfold download_loop.
  induction 1 as [|t rest Ht Hrest IH]; intros st st' H; simpl in H.
  - unfold ret in H. simplify_eq. repeat split; auto.
    + intros t Hin. by apply elem_of_nil in Hin.
    + exists []. by rewrite app_nil_r.
  - apply bind_ok_inv in H as ([] & s1 & H1 & H2).
    apply download_title_ok in H1 as (response & text & mk & Hget & Hex & He & Ho & Hd & Hf & Hnd & Hmk & Htr); [|done].
    apply IH in H2 as (He' & Ho' & Hd' & Hall & Hframe & evs & Htr' & Hreq).
    assert (Hdirs : dirs (fs st') = {["data"]} ∪ dirs (fs st)).
    { rewrite Hd', Hd. destruct rest; set_solver. }
    repeat split.
    + congruence.
    + congruence.
    + done.
    + intros x Hx. destruct (decide (x ∈ rest)) as [Hin|Hnin]; [by apply Hall|].
      apply elem_of_cons in Hx as [->|?]; [|done].
      exists response, text. repeat split; auto.
      * rewrite Hframe, Hf; [apply lookup_insert_eq|].
        intros (y & Hy & Hyin)%list_elem_of_fmap. apply title_file_inj in Hy. by subst.
      * rewrite Hdirs. pose proof (title_file_not_data t). set_solver.
    + intros p Hp. rewrite fmap_cons in Hp. apply not_elem_of_cons in Hp as [Hne Hp].
      rewrite Hframe, Hf by done. by apply lookup_insert_ne.
    + exists ([EvHttpGet wiki_url (wiki_params t)] ++ mk ++
              [EvOpenW (title_file t); EvWrite (title_file t) (JStr text)] ++ evs).
      split.
      * rewrite Htr', Htr. by rewrite <- !app_assoc.
      * rewrite !http_requests_app, Hreq. by destruct Hmk as [-> | ->].
Qed.

Lemma download_title_again svc t st response text :
  has_slash t = false →
  http_get_json svc wiki_url (wiki_params t) = Ok response →
  first_page_extract response = Ok (JStr text) →
  "data" ∈ dirs (fs st) →
  title_file t ∉ dirs (fs st) →
  files (fs st) !! title_file t = Some text →
  ∃ st', download_title svc t st = (Ok tt, st') ∧
         fs st' = fs st ∧ env st' = env st ∧ out st' = out st.
Proof.
  intros Hs Hget Hex Hdata Hnd Hfile.
  unfold download_title. fold (title_path t). rewrite (title_path_file t Hs).
  unfold bind. rewrite requests_get_json_run, Hget, lift_run, Hex, path_exists_run.
  cbn [fs add_events]. rewrite is_dir_data, bool_decide_eq_true_2 by done.
  cbn [orb]. unfold ret at 1.
  rewrite open_w_ok; cycle 1.
  { rewrite is_dir_title_file. by apply bool_decide_eq_false_2. }
  { rewrite parent_title_file by done. rewrite is_dir_data. by apply bool_decide_eq_true_2. }
  rewrite fp_write_str. eexists. split; [reflexivity|].
  cbn [fs env trace out add_events with_fs dirs files].
  rewrite lookup_insert_eq, insert_insert_eq. cbn [default].
  change ("" +:+ text) with text. rewrite insert_id by done.
  by destruct (fs st).
Qed.

Lemma download_loop_again svc titles :
  Forall (λ t, has_slash t = false) titles →
  ∀ st, "data" ∈ dirs (fs st) →
    (∀ t, t ∈ titles → ∃ response text,
        http_get_json svc wiki_url (wiki_params t) = Ok response ∧
        first_page_extract response = Ok (JStr text) ∧
        files (fs st) !! title_file t = Some text ∧
        title_file t ∉ dirs (fs st)) →
    ∃ st', download_loop svc titles st = (Ok tt, st') ∧
           fs st' = fs st ∧ env st' = env st ∧ out st' = out st.
Proof.
  unfold download_loop.
  induction 1 as [|t rest Ht Hrest IH]; intros st Hdata Hall; simpl.
  - by exists st.
  - destruct (Hall t) as (response & text & Hget & Hex & Hfile & Hnd); [set_solver|].
    destruct (download_title_again svc t st response text) as (s1 & H1 & Hfs & He & Ho);
      try done.
    destruct (IH s1) as (st' & H2 & Hfs' & He' & Ho').
    { by rewrite Hfs. }
    { intros x Hx. rewrite Hfs. apply Hall. set_solver. }
    exists st'. rewrite (bind_ok _ _ _ _ _ H1). repeat split; congruence.
Qed.

Lemma wiki_titles_simple : Forall (λ t, has_slash t = false) wiki_titles.
Proof. repeat constructor. Qed.

Lemma simple_sublist (l1 l2 : list string) :
  Forall (λ t, has_slash t = false) (l1 ++ l2) →
  Forall (λ t, has_slash t = false) l1.
Proof. by intros [? _]%Forall_app. Qed.



(** C10: the loop opens every file in write mode, so a second run that gets
    the same replies from the wiki API completes and leaves the disk exactly
    as the first run left it: every [data/{title}.txt] holds the extract
    once, nothing is appended. *)
Theorem download_loop_idempotent svc svc' st st1 :
  (∀ title, title ∈ wiki_titles →
     http_get_json svc' wiki_url (wiki_params title)
       = http_get_json svc wiki_url (wiki_params title)) →
  download_loop svc wiki_titles st = (Ok tt, st1) →
  ∃ st2, download_loop svc' wiki_titles st1 = (Ok tt, st2) ∧
         fs st2 = fs st1 ∧
         ∀ title, title ∈ wiki_titles →
           fetch_extract svc title
             = Ok (JStr (default "" (files (fs st2) !! title_path title))).
Proof.
  intros Hsame H.
  apply (download_loop_ok svc wiki_titles wiki_titles_simple) in H
    as (_ & _ & Hd & Hall & _ & _).
  destruct (download_loop_again svc' wiki_titles wiki_titles_simple st1)
    as (st2 & Hrun & Hfs & _ & _).
  { rewrite Hd. set_solver. }
  { intros t Hin. destruct (Hall t Hin) as (response & text & ? & ? & ? & ?).
    exists response, text. rewrite Hsame by done. done. }
  exists st2. repeat split; [done | done |].
  intros title Hin. destruct (Hall title Hin) as (response & text & Hget & Hex & Hfile & _).
  assert (Hp : title_path title = title_file title).
  { apply title_path_file. by apply (proj1 (Forall_forall _ _) wiki_titles_simple). }
  unfold fetch_extract. rewrite Hget, Hex, Hfs, Hp, Hfile. reflexivity.
Qed.

Lemma download_loop_idempotent_witness :
  ∃ st2, download_loop svc_other wiki_titles (download_loop svc_ok wiki_titles st0).2
           = (Ok tt, st2) ∧
         fs st2 = fs (download_loop svc_ok wiki_titles st0).2 ∧
         ∀ title, title ∈ wiki_titles →
           fetch_extract svc_ok title
             = Ok (JStr (default "" (files (fs st2) !! title_path title))).
Proof.
  apply (download_loop_idempotent svc_ok svc_other st0).
  - intros title _. reflexivity.
  - vm_compute. reflexivity.
Defined.

(** ** Failures *)

Lemma download_title_fetch_fails svc t e st :
  fetch_extract svc t = Raise e →
  download_title svc t st = (Raise e, add_events st [EvHttpGet wiki_url (wiki_params t)]).
Proof.
  unfold fetch_extract, download_title. intros H.
  unfold bind at 1. rewrite requests_get_json_run.
  destruct (http_get_json svc wiki_url (wiki_params t)) as [response|e'].
  - unfold bind. rewrite lift_run, H. reflexivity.
  - by simplify_eq.
Qed.

Lemma download_loop_stops svc done t rest e st st1 :
  download_loop svc done st = (Ok tt, st1) →
  fetch_extract svc t = Raise e →
  download_loop svc (done ++ t :: rest) st
    = (Raise e, add_events st1 [EvHttpGet wiki_url (wiki_params t)]).
Proof.
  unfold download_loop. intros Hdone Hfail.
  rewrite (for_each_app _ _ _ _ _ Hdone). simpl.
  apply bind_raise. by apply download_title_fetch_fails.
Qed.

(** A reply without the expected fields raises on the lookup of the first
    missing one. *)
Example reply_lacks_query :
  first_page_extract (JObj [("batchcomplete", JStr "")]) = Raise (KeyError "query").
Proof. reflexivity. Qed.

Example reply_lacks_pages :
  first_page_extract (JObj [("query", JObj [("normalized", JArr [])])])
    = Raise (KeyError "pages").
Proof. reflexivity. Qed.

Example reply_lacks_extract :
  first_page_extract
    (JObj [("query", JObj [("pages", JObj [("-1", JObj [("missing", JStr "")])])])])
    = Raise (KeyError "extract").
Proof. reflexivity. Qed.

Example reply_without_pages_entries :
  first_page_extract (JObj [("query", JObj [("pages", JObj [])])]) = Raise StopIteration.
Proof. reflexivity. Qed.



(** ** What a computation may do to the state, compositionally *)
Section steps.
Context (R : relation State) `{!PreOrder R}.

Lemma steps_ret {A} (a : A) : steps R (ret a).
Proof. intros st. reflexivity. Qed.

Lemma steps_raise {A} e : steps R (@raise A e).
Proof. intros st. reflexivity. Qed.

Lemma steps_lift {A} (r : Res A) : steps R (lift r).
Proof. intros st. reflexivity. Qed.

Lemma steps_bind {A B} (m : M A) (f : A → M B) :
  steps R m → (∀ a, steps R (f a)) → steps R (bind m f).
Proof.
  intros Hm Hf st. unfold bind. specialize (Hm st).
  destruct (m st) as [[a|e] st1]; [|exact Hm].
  etrans; [exact Hm|]. apply Hf.
Qed.

Lemma steps_if {A} (b : bool) (m1 m2 : M A) :
  steps R m1 → steps R m2 → steps R (if b then m1 else m2).
Proof. by destruct b. Qed.

Lemma steps_for_each {A} (l : list A) (body : A → M unit) :
  (∀ x, steps R (body x)) → steps R (for_each l body).
Proof.
  intros Hb. induction l as [|x l IH]; simpl.
  - apply steps_ret.
  - apply steps_bind; auto.
Qed.

Lemma steps_for_fold {A B} (l : list A) (acc : B) (body : B → A → M B) :
  (∀ b x, steps R (body b x)) → steps R (for_fold l acc body).
Proof.
  intros Hb. revert acc. induction l as [|x l IH]; intros acc; simpl.
  - apply steps_ret.
  - apply steps_bind; auto.
Qed.

Lemma steps_py_dict_get {V} (d : gmap string V) k : steps R (py_dict_get d k).
Proof. unfold py_dict_get. destruct (d !! k); [apply steps_ret | apply steps_raise]. Qed.
End steps.

Global Instance appends_preorder p : PreOrder (appends p).
Proof.
  split.
  - intros st. exists []. by rewrite app_nil_r.
  - intros s1 s2 s3 (e1 & H1 & P1) (e2 & H2 & P2). exists (e1 ++ e2). split.
    + by rewrite H2, H1, app_assoc.
    + by apply Forall_app.
Qed.

Global Instance quiet_preorder p : PreOrder (quiet p).
Proof.
  split.
  - intros st. split; reflexivity.
  - intros s1 s2 s3 [E1 H1] [E2 H2]. split; [congruence | by etrans].
Qed.

Lemma quiet_appends p {A} (m : M A) : steps (quiet p) m → steps (appends p) m.
Proof. intros H st. apply H. Qed.

Lemma quiet_env p {A} (m : M A) st : steps (quiet p) m → env (m st).2 = env st.
Proof. intros H. apply H. Qed.

Lemma appends_os_environ_set p k v :
  p (EvSetEnv k v) → steps (appends p) (os_environ_set k v).
Proof. intros Hp st. exists [EvSetEnv k v]. by repeat constructor. Qed.

Section quiet.
Context (p : Event → Prop) (svc : Services).

Lemma quiet_same st st' : env st' = env st → trace st' = trace st → quiet p st st'.
Proof. intros He H. split; [done|]. exists []. by rewrite app_nil_r. Qed.

Lemma quiet_one st st' ev :
  env st' = env st → trace st' = trace st ++ [ev] → p ev → quiet p st st'.
Proof. intros He H Hp. split; [done|]. exists [ev]. by repeat constructor. Qed.

Lemma quiet_emit ev : p ev → steps (quiet p) (emit ev).
Proof. intros Hp st. by apply (quiet_one _ _ ev). Qed.

Lemma quiet_display o : steps (quiet p) (display o).
Proof. intros st. by apply quiet_same. Qed.

Lemma quiet_logging_call c : p (EvLogging c) → steps (quiet p) (logging_call c).
Proof. apply quiet_emit. Qed.

Lemma quiet_shell cmd : p (EvShell cmd) → steps (quiet p) (shell svc cmd).
Proof. intros Hp st. by apply (quiet_one _ _ (EvShell cmd)). Qed.

Lemma quiet_requests_get_json url params :
  p (EvHttpGet url params) → steps (quiet p) (requests_get_json svc url params).
Proof. intros Hp st. by apply (quiet_one _ _ (EvHttpGet url params)). Qed.

Lemma quiet_path_exists path : steps (quiet p) (path_exists path).
Proof. intros st. by apply quiet_same. Qed.

Lemma quiet_path_mkdir path : p (EvMkdir path) → steps (quiet p) (path_mkdir path).
Proof.
  intros Hp st. apply (quiet_one _ _ (EvMkdir path)); [| |done];
    unfold path_mkdir, bind, emit, get_fs, put_fs, raise; cbn [fs];
    by repeat case_match.
Qed.

Lemma quiet_open_w path : p (EvOpenW path) → steps (quiet p) (open_w path).
Proof.
  intros Hp st. apply (quiet_one _ _ (EvOpenW path)); [| |done];
    unfold open_w, bind, emit, get_fs, put_fs, raise; cbn [fs];
    by repeat case_match.
Qed.

Lemma quiet_fp_write path data :
  p (EvWrite path data) → steps (quiet p) (fp_write path data).
Proof.
  intros Hp st. apply (quiet_one _ _ (EvWrite path data)); [| |done];
    unfold fp_write, bind, emit, get_fs, put_fs, raise; by destruct data.
Qed.

Lemma quiet_reader_load_data r :
  p (EvLoadData r) → steps (quiet p) (reader_load_data svc r).
Proof. intros Hp st. by apply (quiet_one _ _ (EvLoadData r)). Qed.

Lemma quiet_lib c : p (EvLib c) → steps (quiet p) (lib svc c).
Proof.
  intros Hp st. apply (quiet_one _ _ (EvLib c)); [| |done];
    unfold lib, bind, emit, get_env, raise, ret; cbn [env];
    by destruct (lib_raises svc (env st) c).
Qed.

Lemma quiet_retrieve r q :
  p (EvLib (CallRetrieve r q)) → steps (quiet p) (retrieve svc r q).
Proof. intros Hp st. by apply (quiet_one _ _ (EvLib (CallRetrieve r q))). Qed.

Lemma quiet_query e q :
  p (EvLib (CallQuery e q)) → steps (quiet p) (query svc e q).
Proof. intros Hp st. by apply (quiet_one _ _ (EvLib (CallQuery e q))). Qed.

Lemma quiet_print r : p (EvPrint (response_text r)) → steps (quiet p) (print r).
Proof. intros Hp st. by apply (quiet_one _ _ (EvPrint (response_text r))). Qed.
End quiet.

(** ** Order of the calls *)

Lemma nondecreasing_cons a l :
  nondecreasing (a :: l) = true ↔ Forall (λ r, a ≤ r) (take 1 l) ∧ nondecreasing l = true.
Proof.
  destruct l as [|b l]; simpl.
  - split; [by intros _; split; [constructor|] | done].
  - rewrite andb_true_iff, Nat.leb_le. rewrite take_0. split.
    + intros [? ?]. by repeat constructor.
    + intros [H ?]. split; [|done]. by inversion H.
Qed.

Lemma nondecreasing_app l1 l2 :
  nondecreasing l1 = true → nondecreasing l2 = true →
  (∀ x y, x ∈ l1 → y ∈ l2 → x ≤ y) →
  nondecreasing (l1 ++ l2) = true.
Proof.
  intros H1 H2 H. induction l1 as [|a l1 IH]; [done|].
  apply nondecreasing_cons in H1 as [Hhd Htl].
  rewrite <- app_comm_cons. apply nondecreasing_cons. split.
  - destruct l1 as [|b l1]; simpl.
    + destruct l2 as [|c l2]; simpl; [constructor|]. rewrite take_0.
      repeat constructor. apply H; set_solver.
    + rewrite take_0. simpl in Hhd. rewrite take_0 in Hhd. done.
  - apply IH; [done|]. intros x y Hx Hy. apply H; set_solver.
Qed.

Lemma nondecreasing_const k l : Forall (λ r, r = k) l → nondecreasing l = true.
Proof.
  induction 1 as [|a l -> Hl IH]; [done|].
  apply nondecreasing_cons. split; [|done].
  destruct Hl as [|b l -> _]; simpl; [constructor|]. rewrite take_0. by repeat constructor.
Qed.

Lemma ranks_at_rank rank k evs :
  Forall (at_rank rank k) evs → Forall (λ r, r = k) (ranks rank evs).
Proof.
  intros H. apply Forall_forall. intros r Hr.
  apply list_elem_of_omap in Hr as (ev & Hev & Hrank).
  by apply (proj1 (Forall_forall _ _) H ev Hev).
Qed.

Lemma staged_of_appends rank k {A} (m : M A) :
  steps (appends (at_rank rank k)) m → steps (staged rank k k) m.
Proof.
  intros H st. destruct (H st) as (evs & Htr & Hp). exists evs.
  apply ranks_at_rank in Hp. repeat split; [done | by eapply nondecreasing_const |].
  eapply Forall_impl; [exact Hp|]. intros r ->. lia.
Qed.

Lemma staged_bind rank a b c d {A B} (m : M A) (f : A → M B) :
  steps (staged rank a b) m → (∀ x, steps (staged rank c d) (f x)) →
  b ≤ c → a ≤ c → b ≤ d →
  steps (staged rank a d) (bind m f).
Proof.
  intros Hm Hf Hbc Hac Hbd st. unfold bind.
  destruct (Hm st) as (e1 & Htr1 & Ho1 & Hb1).
  destruct (m st) as [[x|e] st1]; simpl in *.
  - destruct (Hf x st1) as (e2 & Htr2 & Ho2 & Hb2).
    exists (e1 ++ e2). unfold in_order, ranks in *. rewrite omap_app. repeat split.
    + by rewrite Htr2, Htr1, app_assoc.
    + apply nondecreasing_app; [done | done |].
      intros x1 x2 H1 H2.
      apply (proj1 (Forall_forall _ _) Hb1) in H1.
      apply (proj1 (Forall_forall _ _) Hb2) in H2. lia.
    + apply Forall_app. split; (eapply Forall_impl; [eassumption|]); simpl; intros; lia.
  - exists e1. repeat split; [done | done |].
    eapply Forall_impl; [eassumption|]. simpl; intros; lia.
Qed.

Lemma staged_step rank a c d {A B} (m : M A) (f : A → M B) :
  a ≤ c → a ≤ d →
  steps (appends (at_rank rank a)) m → (∀ x, steps (staged rank c d) (f x)) →
  steps (staged rank a d) (bind m f).
Proof.
  intros Hac Had Hm Hf.
  apply (staged_bind rank a a c d); [by apply staged_of_appends | done | lia..].
Qed.

Lemma staged_ret rank a b {A} (x : A) : steps (staged rank a b) (ret x).
Proof. intros st. exists []. rewrite app_nil_r. repeat split. constructor. Qed.

Ltac unfold_calls :=
  unfold new_embed_model, new_llm, new_service_context, new_index, new_retriever,
    new_query_engine, new_tool_metadata, new_query_engine_tool, new_agent,
    new_index_node, display_source_node, run_query, top_level, build_object,
    build_agent, load_title, download_title, objects_loop, agents_loop, load_loop,
    download_loop.

(** Walks through a cell and leaves one goal per logged event. *)
Ltac quiet_walk :=
  repeat lazymatch goal with
    | |- steps _ (bind _ _) => apply steps_bind; [tc_solve | | intros ?]
    | |- steps _ (ret _) => apply steps_ret; tc_solve
    | |- steps _ (lift _) => apply steps_lift; tc_solve
    | |- steps _ (raise _) => apply steps_raise; tc_solve
    | |- steps _ (py_dict_get _ _) => apply steps_py_dict_get; tc_solve
    | |- steps _ (if _ then _ else _) => apply steps_if
    | |- steps _ (for_each _ _) => apply steps_for_each; [tc_solve | intros ?]
    | |- steps _ (for_fold _ _ _) => apply steps_for_fold; [tc_solve | intros ? ?]
    | |- steps _ (display _) => apply quiet_display
    | |- steps _ (path_exists _) => apply quiet_path_exists
    | |- steps _ (lib _ _) => apply quiet_lib
    | |- steps _ (logging_call _) => apply quiet_logging_call
    | |- steps _ (shell _ _) => apply quiet_shell
    | |- steps _ (requests_get_json _ _ _) => apply quiet_requests_get_json
    | |- steps _ (path_mkdir _) => apply quiet_path_mkdir
    | |- steps _ (open_w _) => apply quiet_open_w
    | |- steps _ (fp_write _ _) => apply quiet_fp_write
    | |- steps _ (reader_load_data _ _) => apply quiet_reader_load_data
    | |- steps _ (retrieve _ _ _) => apply quiet_retrieve
    | |- steps _ (query _ _ _) => apply quiet_query
    | |- steps _ (print _) => apply quiet_print
    | |- steps _ _ => progress unfold_calls
    end.

Ltac rank_goal := let r := fresh "r" in let H := fresh "H" in
  unfold at_rank; intros r H; cbv in H; congruence.

Ltac at_rank_tac :=
  lazymatch goal with
  | |- steps _ (os_environ_set _ _) => apply appends_os_environ_set
  | |- _ => apply quiet_appends; quiet_walk
  end; rank_goal.

Lemma notebook1_index_staged svc : steps (staged spec_rank 1 4) (notebook1_index svc).
Proof.
  unfold notebook1_index.
  apply (staged_step _ 1 1 4); [lia | lia | at_rank_tac | intros _].
  apply (staged_step _ 1 1 4); [lia | lia | at_rank_tac | intros _].
  apply (staged_step _ 1 2 4); [lia | lia | at_rank_tac | intros _].
  apply (staged_step _ 2 2 4); [lia | lia | at_rank_tac | intros _].
  apply (staged_step _ 2 2 4); [lia | lia | at_rank_tac | intros _].
  apply (staged_step _ 2 3 4); [lia | lia | at_rank_tac | intros documents].
  apply (staged_step _ 3 3 4); [lia | lia | at_rank_tac | intros embed_model].
  apply (staged_step _ 3 3 4); [lia | lia | at_rank_tac | intros service_context].
  apply (staged_step _ 3 4 4); [lia | lia | at_rank_tac | intros index].
  apply staged_of_appends. at_rank_tac.
Qed.

Lemma notebook1_staged svc : steps (staged spec_rank 1 5) (notebook1 svc).
Proof.
  unfold notebook1.
  apply (staged_bind _ 1 4 5 5); [apply notebook1_index_staged | intros r | lia..].
  apply staged_of_appends. unfold notebook1_retrieve. at_rank_tac.
Qed.

Lemma notebook2_staged svc : steps (staged notebook2_rank 1 4) (notebook2 svc).
Proof.
  unfold notebook2.
  apply (staged_step _ 1 1 4); [lia | lia | at_rank_tac | intros _].
  apply (staged_step _ 1 1 4); [lia | lia | at_rank_tac | intros _].
  apply (staged_step _ 1 2 4); [lia | lia | at_rank_tac | intros city_docs].
  apply (staged_step _ 2 3 4); [lia | lia | at_rank_tac | intros _].
  apply (staged_step _ 3 3 4); [lia | lia | at_rank_tac | intros llm].
  apply (staged_step _ 3 3 4); [lia | lia | at_rank_tac | intros service_context].
  apply (staged_step _ 3 3 4); [lia | lia | at_rank_tac | intros agents].
  apply (staged_step _ 3 3 4); [lia | lia | at_rank_tac | intros objects].
  apply (staged_step _ 3 4 4); [lia | lia | at_rank_tac | intros query_engine].
  apply (staged_step _ 4 4 4); [lia | lia | at_rank_tac | intros _].
  apply (staged_step _ 4 4 4); [lia | lia | at_rank_tac | intros _].
  apply (staged_step _ 4 4 4); [lia | lia | at_rank_tac | intros _].
  apply staged_ret.
Qed.



(** ** Credentials *)

Lemma channels_env_writes kv keys evs :
  Forall (channels kv keys) evs → ∀ x, x ∈ env_writes evs → x = kv.
Proof.
  intros H x Hx. apply list_elem_of_omap in Hx as (ev & Hev & Hw).
  by apply (proj1 (Forall_forall _ _) H _ Hev).
Qed.

Lemma channels_key_arguments kv keys evs :
  Forall (channels kv keys) evs → ∀ key, key ∈ credentials_by_argument evs → key ∈ keys.
Proof.
  intros H key Hx. apply list_elem_of_omap in Hx as (ev & Hev & Hw).
  by apply (proj1 (Forall_forall _ _) H _ Hev).
Qed.

Lemma plain_events evs :
  Forall plain evs → env_writes evs = [] ∧ credentials_by_argument evs = [].
Proof.
  induction 1 as [|ev evs [Hw Hk] _ [IHw IHk]]; [done|].
  unfold env_writes, credentials_by_argument in *. simpl. by rewrite Hw, Hk.
Qed.

Lemma nothing_in_nil {X} (l : list X) : (∀ x, x ∈ l → x ∈ @nil X) → l = [].
Proof. destruct l as [|x l]; [done|]. intros H. specialize (H x). set_solver. Qed.

Ltac channels_goal :=
  first
    [ exact I
    | reflexivity
    | split;
      [ intros ? [=]; subst; reflexivity
      | intros ? [=]; subst; set_solver ] ].

Ltac channels_tac :=
  lazymatch goal with
  | |- steps _ (os_environ_set _ _) => apply appends_os_environ_set
  | |- _ => apply quiet_appends; quiet_walk
  end; channels_goal.

Lemma notebook1_channels svc :
  steps (appends (channels ("OPENAI_API_KEY", "<OPENAI_API_KEY>") ["<NOMIC_API_KEY>"]))
    (notebook1 svc).
Proof.
  unfold notebook1. apply steps_bind; [tc_solve | | intros r].
  - unfold notebook1_index.
    repeat (apply steps_bind; [tc_solve | channels_tac | intros ?]).
    channels_tac.
  - unfold notebook1_retrieve. channels_tac.
Qed.

Lemma notebook2_channels svc :
  steps (appends (channels ("OPENAI_API_KEY", "sk-...") [])) (notebook2 svc).
Proof.
  unfold notebook2.
  repeat (apply steps_bind; [tc_solve | channels_tac | intros ?]).
  apply steps_ret; tc_solve.
Qed.

Lemma steps_run {A} (R : relation State) (m : M A) st r st' :
  steps R m → m st = (r, st') → R st st'.
Proof. intros H Hrun. specialize (H st). by rewrite Hrun in H. Qed.

Lemma os_environ_set_run k v st :
  os_environ_set k v st =
    (Ok tt, mkState (<[k := v]> (env st)) (fs st) (trace st ++ [EvSetEnv k v]) (out st)).
Proof. reflexivity. Qed.

Lemma lib_ok_inv svc c st st' :
  lib svc c st = (Ok tt, st') →
  lib_raises svc (env st) c = None ∧ st' = add_events st [EvLib c].
Proof.
  unfold lib, bind, emit, get_env, raise, ret. cbn [env].
  destruct (lib_raises svc (env st) c); intros; by simplify_eq.
Qed.

Lemma new_embed_model_ok_inv svc e st e' st' :
  new_embed_model svc e st = (Ok e', st') →
  e' = e ∧ st' = add_events st [EvLib (NewEmbedModel e)].
Proof.
  unfold new_embed_model. intros H.
  apply bind_ok_inv in H as ([] & s & H1 & H2).
  apply lib_ok_inv in H1 as [_ ->]. unfold ret in H2. by simplify_eq.
Qed.

Ltac plain_tac := quiet_walk; (split; reflexivity).

Lemma quiet_plain_run {A} (m : M A) st r st' :
  steps (quiet plain) m → m st = (r, st') →
  env st' = env st ∧
  ∃ evs, trace st' = trace st ++ evs ∧
         env_writes evs = [] ∧ credentials_by_argument evs = [].
Proof.
  intros H Hrun. destruct (steps_run _ _ _ _ _ H Hrun) as (He & evs & Htr & Hp).
  split; [done|]. exists evs. split; [done|]. by apply plain_events.
Qed.

Lemma notebook1_ok_credentials svc st nodes st' :
  notebook1 svc st = (Ok nodes, st') →
  env st' = <["OPENAI_API_KEY" := "<OPENAI_API_KEY>"]> (env st) ∧
  ∃ evs, trace st' = trace st ++ evs ∧
         env_writes evs = [("OPENAI_API_KEY", "<OPENAI_API_KEY>")] ∧
         credentials_by_argument evs = ["<NOMIC_API_KEY>"].
Proof.
  unfold notebook1. intros H.
  apply bind_ok_inv in H as (r & s1 & Hidx & Hret).
  unfold notebook1_index in Hidx.
  apply bind_ok_inv in Hidx as ([] & sa & Hset & Hidx).
  rewrite os_environ_set_run in Hset. injection Hset as <-.
  apply bind_ok_inv in Hidx as ([] & sb & Hb & Hidx).
  apply bind_ok_inv in Hidx as ([] & sc & Hc & Hidx).
  apply bind_ok_inv in Hidx as ([] & sd & Hd & Hidx).
  apply bind_ok_inv in Hidx as ([] & se & He & Hidx).
  apply bind_ok_inv in Hidx as (documents & sf & Hf & Hidx).
  apply bind_ok_inv in Hidx as (embed_model & sg & Hg & Hidx).
  apply new_embed_model_ok_inv in Hg as [-> ->].
  apply quiet_plain_run in Hb as (Eb & evb & Tb & Wb & Kb); [|plain_tac].
  apply quiet_plain_run in Hc as (Ec & evc & Tc & Wc & Kc); [|plain_tac].
  apply quiet_plain_run in Hd as (Ed & evd & Td & Wd & Kd); [|plain_tac].
  apply quiet_plain_run in He as (Ee & eve & Te & We & Ke); [|plain_tac].
  apply quiet_plain_run in Hf as (Ef & evf & Tf & Wf & Kf); [|plain_tac].
  apply quiet_plain_run in Hidx as (Ei & evi & Ti & Wi & Ki); [|plain_tac].
  apply quiet_plain_run in Hret as (Er & evr & Tr & Wr & Kr);
    [|unfold notebook1_retrieve; plain_tac].
  cbn [env trace add_events] in *.
  split; [congruence|].
  exists ([EvSetEnv "OPENAI_API_KEY" "<OPENAI_API_KEY>"] ++ evb ++ evc ++ evd ++ eve ++ evf
          ++ [EvLib (NewEmbedModel (NomicEmbedding "<NOMIC_API_KEY>" "nomic-embed-text-v1"
                       "search_query" "search_document"))] ++ evi ++ evr).
  split; [|split].
  - rewrite Tr, Ti, Tf, Te, Td, Tc, Tb. by rewrite <- !app_assoc.
  - unfold env_writes in *. rewrite !omap_app.
    rewrite Wb, Wc, Wd, We, Wf, Wi, Wr. reflexivity.
  - unfold credentials_by_argument in *. rewrite !omap_app.
    rewrite Kb, Kc, Kd, Ke, Kf, Ki, Kr. reflexivity.
Qed.

Lemma notebook2_ok_credentials svc st s st' :
  notebook2 svc st = (Ok s, st') →
  env st' = <["OPENAI_API_KEY" := "sk-..."]> (env st) ∧
  ∃ evs, trace st' = trace st ++ evs ∧
         env_writes evs = [("OPENAI_API_KEY", "sk-...")] ∧
         credentials_by_argument evs = [].
Proof.
  unfold notebook2. intros H.
  apply bind_ok_inv in H as ([] & sa & Ha & H).
  apply bind_ok_inv in H as ([] & sb & Hb & H).
  apply bind_ok_inv in H as (city_docs & sc & Hc & H).
  apply bind_ok_inv in H as ([] & sd & Hset & H).
  rewrite os_environ_set_run in Hset. injection Hset as <-.
  apply quiet_plain_run in Ha as (Ea & eva & Ta & Wa & Ka); [|plain_tac].
  apply quiet_plain_run in Hb as (Eb & evb & Tb & Wb & Kb); [|plain_tac].
  apply quiet_plain_run in Hc as (Ec & evc & Tc & Wc & Kc); [|plain_tac].
  apply quiet_plain_run in H as (Er & evr & Tr & Wr & Kr); [|plain_tac].
  cbn [env trace] in *.
  split; [congruence|].
  exists (eva ++ evb ++ evc ++ [EvSetEnv "OPENAI_API_KEY" "sk-..."] ++ evr).
  split; [|split].
  - rewrite Tr, Tc, Tb, Ta. by rewrite <- !app_assoc.
  - unfold env_writes in *. rewrite !omap_app. rewrite Wa, Wb, Wc, Wr. reflexivity.
  - unfold credentials_by_argument in *. rewrite !omap_app.
    rewrite Ka, Kb, Kc, Kr. reflexivity.
Qed.

(** C2, as stated, fails on the first notebook: the Nomic key reaches the
    library as the [api_key] argument of [NomicEmbedding]. *)
Lemma nomic_key_passed_by_argument :
  credentials_by_argument (trace (notebook1 svc_ok st0).2) = ["<NOMIC_API_KEY>"] ∧
  env_writes (trace (notebook1 svc_ok st0).2) = [("OPENAI_API_KEY", "<OPENAI_API_KEY>")] ∧
  ¬ env_is_only_channel (trace (notebook1 svc_ok st0).2).
Proof.
  repeat split; try (vm_compute; reflexivity).
  unfold env_is_only_channel. vm_compute. discriminate.
Qed.

(** C2 (amended): the OpenAI key reaches the library through the
    environment: each notebook writes [OPENAI_API_KEY] (from a string
    literal) and nothing else into the environment, and no call of the second
    notebook receives a key.  The key of the embedding provider does not go
    through the environment: the first notebook passes the literal
    [<NOMIC_API_KEY>] as the [api_key] argument of [NomicEmbedding], and that
    is the only key passed by argument.  On a run that completes, the
    environment holds the OpenAI key and the log shows exactly these
    hand-overs. *)
Theorem credentials_channels svc st :
  (∃ evs, trace (notebook1 svc st).2 = trace st ++ evs ∧
     (∀ x, x ∈ env_writes evs → x = ("OPENAI_API_KEY", "<OPENAI_API_KEY>")) ∧
     (∀ key, key ∈ credentials_by_argument evs → key = "<NOMIC_API_KEY>")) ∧
  (∃ evs, trace (notebook2 svc st).2 = trace st ++ evs ∧
     (∀ x, x ∈ env_writes evs → x = ("OPENAI_API_KEY", "sk-...")) ∧
     env_is_only_channel evs) ∧
  (∀ nodes st', notebook1 svc st = (Ok nodes, st') →
     env st' = <["OPENAI_API_KEY" := "<OPENAI_API_KEY>"]> (env st) ∧
     ∃ evs, trace st' = trace st ++ evs ∧
            env_writes evs = [("OPENAI_API_KEY", "<OPENAI_API_KEY>")] ∧
            credentials_by_argument evs = ["<NOMIC_API_KEY>"]) ∧
  (∀ s st', notebook2 svc st = (Ok s, st') →
     env st' = <["OPENAI_API_KEY" := "sk-..."]> (env st) ∧
     ∃ evs, trace st' = trace st ++ evs ∧
            env_writes evs = [("OPENAI_API_KEY", "sk-...")] ∧
            credentials_by_argument evs = []).
Proof.
  split; [|split; [|split]].
  - destruct (notebook1_channels svc st) as (evs & Htr & Hp). exists evs.
    split; [done|]. split.
    + by apply (channels_env_writes _ _ _ Hp).
    + intros key Hkey. apply (channels_key_arguments _ _ _ Hp) in Hkey.
      by apply list_elem_of_singleton in Hkey.
  - destruct (notebook2_channels svc st) as (evs & Htr & Hp). exists evs.
    split; [done|]. split.
    + by apply (channels_env_writes _ _ _ Hp).
    + apply nothing_in_nil. by apply (channels_key_arguments _ _ _ Hp).
  - apply notebook1_ok_credentials.
  - apply notebook2_ok_credentials.
Qed.

Lemma credentials_channels_witness :
  env (notebook1 svc_ok st0).2 = <["OPENAI_API_KEY" := "<OPENAI_API_KEY>"]> (env st0) ∧
  env (notebook2 svc_ok st0).2 = <["OPENAI_API_KEY" := "sk-..."]> (env st0).
Proof.
  split.
  - refine (proj1 (proj1 (proj2 (proj2 (credentials_channels svc_ok st0)))
      (value_or [] (notebook1 svc_ok st0).1)
      (notebook1 svc_ok st0).2 _)).
    vm_compute. reflexivity.
  - refine (proj1 (proj2 (proj2 (proj2 (credentials_channels svc_ok st0)))
      (value_or no_session (notebook2 svc_ok st0).1)
      (notebook2 svc_ok st0).2 _)).
    vm_compute. reflexivity.
Defined.

(** ** The loops over the titles *)

Lemma ret_ok_inv {A} (a a' : A) st st' : ret a st = (Ok a', st') → a' = a ∧ st' = st.
Proof. unfold ret. intros. by simplify_eq. Qed.

Lemma lib_ret_ok_inv svc c {A} (a a' : A) st st' :
  (lib svc c ;; ret a) st = (Ok a', st') → a' = a ∧ st' = add_events st [EvLib c].
Proof.
  intros H. apply bind_ok_inv in H as ([] & s & H1 & H2).
  apply lib_ok_inv in H1 as [_ ->]. by apply ret_ok_inv in H2.
Qed.

Lemma py_dict_get_ok_inv {V} (d : gmap string V) k v st st' :
  py_dict_get d k st = (Ok v, st') → d !! k = Some v ∧ st' = st.
Proof.
  unfold py_dict_get. destruct (d !! k); [|discriminate].
  intros H. apply ret_ok_inv in H as [-> ->]. done.
Qed.

Lemma load_title_ok_inv svc acc t st acc' st' :
  load_title svc acc t st = (Ok acc', st') →
  ∃ docs, load_data svc (SimpleDirectoryReader_files [title_file t]) (fs st) = Ok docs ∧
          acc' = <[t := docs]> acc ∧
          st' = add_events st [EvLoadData (SimpleDirectoryReader_files [title_file t])].
Proof.
  unfold load_title. intros H.
  apply bind_ok_inv in H as (docs & s & H1 & H2).
  apply ret_ok_inv in H2 as [-> ->].
  unfold reader_load_data, bind, emit, get_fs, lift in H1. cbn [fs] in H1.
  exists docs. by simplify_eq.
Qed.

Lemma load_loop_ok svc titles :
  ∀ acc st city_docs st',
    for_fold titles acc (load_title svc) st = (Ok city_docs, st') →
    st' = add_events st
            ((λ t, EvLoadData (SimpleDirectoryReader_files [title_file t])) <$> titles) ∧
    dom city_docs = list_to_set titles ∪ dom acc ∧
    (∀ t, t ∈ titles →
       ∃ docs, load_data svc (SimpleDirectoryReader_files [title_file t]) (fs st) = Ok docs ∧
               city_docs !! t = Some docs) ∧
    (∀ t, t ∉ titles → city_docs !! t = acc !! t).
Proof.
  induction titles as [|t rest IH]; intros acc st city_docs st' H; simpl in H.
  - apply ret_ok_inv in H as [-> ->]. repeat split.
    + unfold add_events. simpl. rewrite app_nil_r. by destruct st.
    + set_solver.
    + intros t Hin. by apply elem_of_nil in Hin.
  - apply bind_ok_inv in H as (acc' & s1 & H1 & H2).
    apply load_title_ok_inv in H1 as (docs & Hload & -> & ->).
    apply IH in H2 as (-> & Hdom & Hall & Hframe). repeat split.
    + unfold add_events. cbn [env fs trace out fmap list_fmap]. by rewrite <- app_assoc.
    + rewrite Hdom, dom_insert_L. set_solver.
    + intros x Hx. destruct (decide (x ∈ rest)) as [Hin|Hnin]; [by apply Hall|].
      apply elem_of_cons in Hx as [->|?]; [|done].
      exists docs. split; [done|]. rewrite Hframe by done. apply lookup_insert_eq.
    + intros x Hx. apply not_elem_of_cons in Hx as [Hne Hx].
      rewrite Hframe by done. by apply lookup_insert_ne.
Qed.

(** C5: after the loading loop, the keys of [city_docs] are exactly the
    titles of [wiki_titles], and the value of a title is what the reader
    returned for the one file [data/{title}.txt]; the loop reads one such
    file list per title, in order, and leaves the disk alone. *)
Theorem city_docs_loaded_per_title svc st city_docs st' :
  load_loop svc wiki_titles st = (Ok city_docs, st') →
  dom city_docs = list_to_set wiki_titles ∧
  (∀ title, title ∈ wiki_titles →
     ∃ docs, city_docs !! title = Some docs ∧
             load_data svc (SimpleDirectoryReader_files ["data/" +:+ title +:+ ".txt"])
               (fs st) = Ok docs) ∧
  fs st' = fs st ∧
  trace st' = trace st ++
    ((λ title, EvLoadData (SimpleDirectoryReader_files ["data/" +:+ title +:+ ".txt"]))
       <$> wiki_titles).
Proof.
  unfold load_loop. intros H.
  apply load_loop_ok in H as (-> & Hdom & Hall & _). repeat split.
  - rewrite Hdom, dom_empty_L. set_solver.
  - intros title Hin. destruct (Hall title Hin) as (docs & ? & ?). by exists docs.
Qed.

Lemma city_docs_loaded_per_title_witness :
  ∃ docs,
    value_or (∅ : gmap string (list Document))
      (load_loop svc_ok wiki_titles (download_loop svc_ok wiki_titles st0).2).1
      !! "Boston" = Some docs ∧
    load_data svc_ok (SimpleDirectoryReader_files ["data/" +:+ "Boston" +:+ ".txt"])
      (fs (download_loop svc_ok wiki_titles st0).2) = Ok docs.
Proof.
  refine (proj1 (proj2 (city_docs_loaded_per_title svc_ok
    (download_loop svc_ok wiki_titles st0).2 _
    (load_loop svc_ok wiki_titles (download_loop svc_ok wiki_titles st0).2).2 _))
    "Boston" _).
  - vm_compute. reflexivity.
  - unfold wiki_titles. set_solver.
Defined.

Lemma build_agent_ok_inv svc city_docs sc acc t st acc' st' :
  build_agent svc city_docs sc acc t st = (Ok acc', st') →
  ∃ docs, city_docs !! t = Some docs ∧ acc' = <[t := document_agent t docs sc]> acc.
Proof.
  unfold build_agent, new_index, new_query_engine, new_tool_metadata,
    new_query_engine_tool, new_llm, new_agent.
  intros H.
  apply bind_ok_inv in H as (docs & s1 & H1 & H).
  apply py_dict_get_ok_inv in H1 as [Hdocs ->].
  apply bind_ok_inv in H as (vector_index & s2 & H2 & H).
  apply lib_ret_ok_inv in H2 as [-> ->].
  apply bind_ok_inv in H as (docs' & s3 & H3 & H).
  apply py_dict_get_ok_inv in H3 as [Hdocs' ->].
  assert (docs' = docs) as -> by congruence.
  apply bind_ok_inv in H as (summary_index & s4 & H4 & H).
  apply lib_ret_ok_inv in H4 as [-> ->].
  apply bind_ok_inv in H as (vector_query_engine & s5 & H5 & H).
  apply lib_ret_ok_inv in H5 as [-> ->].
  apply bind_ok_inv in H as (list_query_engine & s6 & H6 & H).
  apply lib_ret_ok_inv in H6 as [-> ->].
  apply bind_ok_inv in H as (vector_meta & s7 & H7 & H).
  apply lib_ret_ok_inv in H7 as [-> ->].
  apply bind_ok_inv in H as (vector_tool & s8 & H8 & H).
  apply lib_ret_ok_inv in H8 as [-> ->].
  apply bind_ok_inv in H as (summary_meta & s9 & H9 & H).
  apply lib_ret_ok_inv in H9 as [-> ->].
  apply bind_ok_inv in H as (summary_tool & s10 & H10 & H).
  apply lib_ret_ok_inv in H10 as [-> ->].
  apply bind_ok_inv in H as (function_llm & s11 & H11 & H).
  apply lib_ret_ok_inv in H11 as [-> ->].
  apply bind_ok_inv in H as (agent & s12 & H12 & H).
  apply lib_ret_ok_inv in H12 as [-> ->].
  apply ret_ok_inv in H as [-> _].
  exists docs. done.
Qed.

Lemma agents_loop_ok svc city_docs sc titles :
  ∀ acc st agents st',
    for_fold titles acc (build_agent svc city_docs sc) st = (Ok agents, st') →
    dom agents = list_to_set titles ∪ dom acc ∧
    (∀ t, t ∈ titles →
       ∃ docs, city_docs !! t = Some docs ∧ agents !! t = Some (document_agent t docs sc)) ∧
    (∀ t, t ∉ titles → agents !! t = acc !! t).
Proof.
  induction titles as [|t rest IH]; intros acc st agents st' H; simpl in H.
  - apply ret_ok_inv in H as [-> ->]. repeat split.
    + set_solver.
    + intros t Hin. by apply elem_of_nil in Hin.
  - apply bind_ok_inv in H as (acc' & s1 & H1 & H2).
    apply build_agent_ok_inv in H1 as (docs & Hdocs & ->).
    apply IH in H2 as (Hdom & Hall & Hframe). repeat split.
    + rewrite Hdom, dom_insert_L. set_solver.
    + intros x Hx. destruct (decide (x ∈ rest)) as [Hin|Hnin]; [by apply Hall|].
      apply elem_of_cons in Hx as [->|?]; [|done].
      exists docs. split; [done|]. rewrite Hframe by done. apply lookup_insert_eq.
    + intros x Hx. apply not_elem_of_cons in Hx as [Hne Hx].
      rewrite Hframe by done. by apply lookup_insert_ne.
Qed.

(** C8: after the agent-building loop, the keys of [agents] are exactly the
    titles of [wiki_titles], and the agent of a title is an [OpenAIAgent]
    made from exactly two tools: ["vector_tool"] on a query engine over a
    [VectorStoreIndex] of that title's documents, and ["summary_tool"] on a
    query engine over a [SummaryIndex] of the same documents. *)
Theorem agents_built_per_title svc city_docs service_context st agents st' :
  agents_loop svc wiki_titles city_docs service_context st = (Ok agents, st') →
  dom agents = list_to_set wiki_titles ∧
  ∀ title, title ∈ wiki_titles →
    ∃ docs agent vector_tool summary_tool,
      city_docs !! title = Some docs ∧
      agents !! title = Some agent ∧
      tools_of agent = [vector_tool; summary_tool] ∧
      tool_name vector_tool = "vector_tool" ∧
      engine_index (tool_engine vector_tool)
        = VectorStoreIndex_from_documents docs service_context None ∧
      tool_name summary_tool = "summary_tool" ∧
      engine_index (tool_engine summary_tool)
        = SummaryIndex_from_documents docs service_context ∧
      agent = document_agent title docs service_context.
Proof.
  unfold agents_loop. intros H.
  apply agents_loop_ok in H as (Hdom & Hall & _). split.
  - rewrite Hdom, dom_empty_L. set_solver.
  - intros title Hin. destruct (Hall title Hin) as (docs & Hdocs & Hagent).
    exists docs, (document_agent title docs service_context).
    eexists _, _. repeat split; done.
Qed.

Lemma agents_built_per_title_witness :
  dom (value_or (∅ : gmap string Agent)
         (agents_loop svc_ok wiki_titles city_docs_ok service_context_ok st0).1)
    = list_to_set (C := gset string) wiki_titles.
Proof.
  refine (proj1 (agents_built_per_title svc_ok city_docs_ok service_context_ok st0
    (value_or (∅ : gmap string Agent)
       (agents_loop svc_ok wiki_titles city_docs_ok service_context_ok st0).1)
    (agents_loop svc_ok wiki_titles city_docs_ok service_context_ok st0).2 _)).
  vm_compute. reflexivity.
Defined.

Lemma build_object_ok_inv svc agents acc t st acc' st' :
  build_object svc agents acc t st = (Ok acc', st') →
  ∃ agent, agents !! t = Some agent ∧
           acc' = acc ++ [mkIndexNode (wiki_summary t) t agent].
Proof.
  unfold build_object, new_index_node. intros H.
  apply bind_ok_inv in H as (agent & s1 & H1 & H).
  apply py_dict_get_ok_inv in H1 as [Hagent ->].
  apply bind_ok_inv in H as (node & s2 & H2 & H).
  apply lib_ret_ok_inv in H2 as [-> ->].
  apply ret_ok_inv in H as [-> _]. by exists agent.
Qed.

Lemma objects_loop_ok svc agents titles :
  ∀ acc st objects st',
    for_fold titles acc (build_object svc agents) st = (Ok objects, st') →
    ∃ new, objects = acc ++ new ∧
      Forall2 (λ t n, index_id_of n = t ∧ text_of n = wiki_summary t ∧
                      agents !! t = Some (obj_of n)) titles new.
Proof.
  induction titles as [|t rest IH]; intros acc st objects st' H; simpl in H.
  - apply ret_ok_inv in H as [-> ->]. exists []. by rewrite app_nil_r.
  - apply bind_ok_inv in H as (acc' & s1 & H1 & H2).
    apply build_object_ok_inv in H1 as (agent & Hagent & ->).
    apply IH in H2 as (new & -> & Hnew).
    exists (mkIndexNode (wiki_summary t) t agent :: new). split.
    + by rewrite <- app_assoc.
    + by constructor.
Qed.

Lemma top_level_ok_inv svc objects sc st qe st' :
  top_level svc objects sc st = (Ok qe, st') →
  qe = as_query_engine (VectorStoreIndex_objects objects sc) (Some 1%Z) (Some true).
Proof.
  unfold top_level, new_index, new_query_engine. intros H.
  apply bind_ok_inv in H as (vector_index & s1 & H1 & H).
  apply lib_ret_ok_inv in H1 as [-> ->].
  by apply lib_ret_ok_inv in H as [-> _].
Qed.

(** C9: the list [objects] holds one [IndexNode] per title of [wiki_titles],
    in the order of [wiki_titles], with [index_id] the title and [obj] the
    agent of the title; the top-level query engine is built over these
    objects with [similarity_top_k=1], so that a retriever that returns at
    most [similarity_top_k] nodes passes a query on to at most one document
    agent. *)
Theorem objects_and_top_level svc agents service_context retrieved
    st objects st1 st1' query_engine st2 :
  objects_loop svc wiki_titles agents st = (Ok objects, st1) →
  top_level svc objects service_context st1' = (Ok query_engine, st2) →
  respects_top_k retrieved →
  index_id_of <$> objects = wiki_titles ∧
  Forall2 (λ title node, index_id_of node = title ∧ agents !! title = Some (obj_of node))
    wiki_titles objects ∧
  engine_index query_engine = VectorStoreIndex_objects objects service_context ∧
  engine_top_k query_engine = Some 1%Z ∧
  ∀ query, length (routed_agents retrieved query_engine query) ≤ 1.
Proof.
  unfold objects_loop. intros Hobj Htop Hk.
  apply objects_loop_ok in Hobj as (new & -> & Hnew). rewrite app_nil_l in *.
  apply top_level_ok_inv in Htop as ->. repeat split.
  - clear -Hnew. induction Hnew as [|t n ts ns (Hid & _ & _) _ IH]; [done|].
    rewrite fmap_cons, Hid. f_equal. exact IH.
  - eapply Forall2_impl; [exact Hnew|]. simpl. naive_solver.
  - intros query. unfold routed_agents. rewrite length_fmap.
    apply (Hk _ query 1%Z). reflexivity.
Qed.

Lemma first_k_retriever_respects_top_k : respects_top_k first_k_retriever.
Proof.
  intros q query k Hk. unfold first_k_retriever. rewrite Hk. simpl.
  destruct (engine_index q); simpl; try lia. rewrite length_take. lia.
Qed.

Lemma objects_and_top_level_witness :
  index_id_of <$>
    value_or [] (objects_loop svc_ok wiki_titles agents_ok st0).1 = wiki_titles ∧
  ∀ query,
    length (routed_agents first_k_retriever
      (value_or no_query_engine
         (top_level svc_ok (value_or [] (objects_loop svc_ok wiki_titles agents_ok st0).1)
            service_context_ok st0).1) query) ≤ 1.
Proof.
  pose proof (objects_and_top_level svc_ok agents_ok service_context_ok first_k_retriever
    st0 (value_or [] (objects_loop svc_ok wiki_titles agents_ok st0).1)
    (objects_loop svc_ok wiki_titles agents_ok st0).2 st0
    (value_or no_query_engine
       (top_level svc_ok (value_or [] (objects_loop svc_ok wiki_titles agents_ok st0).1)
          service_context_ok st0).1)
    (top_level svc_ok (value_or [] (objects_loop svc_ok wiki_titles agents_ok st0).1)
       service_context_ok st0).2) as H.
  destruct H as (Hids & _ & _ & _ & Hroute).
  - vm_compute. reflexivity.
  - vm_compute. reflexivity.
  - exact first_k_retriever_respects_top_k.
  - split; [exact Hids | exact Hroute].
Defined.

(** ** Outputs and the external services *)

Lemma notebook1_out_ok st :
  out (notebook1 svc_ok st).2
    = out st ++ [OutSourceNode (mkNodeWithScore "9058e2a4" "Viaweb" "0.61") 2000].
Proof.
  cbv [notebook1 notebook1_index notebook1_retrieve bind ret lift emit display get_fs
       put_fs get_env os_environ_set logging_call shell reader_load_data new_embed_model
       new_service_context new_index new_retriever lib retrieve display_source_node
       for_each svc_ok read_files http_get_json shell_effect load_data lib_raises
       retrieve_nodes query_response env fs trace out snd].
  reflexivity.
Qed.

Lemma notebook1_out_other st :
  out (notebook1 svc_other st).2
    = out st ++ [OutSourceNode (mkNodeWithScore "cc1c29ab" "Fortran" "0.60") 2000].
Proof.
  cbv [notebook1 notebook1_index notebook1_retrieve bind ret lift emit display get_fs
       put_fs get_env os_environ_set logging_call shell reader_load_data new_embed_model
       new_service_context new_index new_retriever lib retrieve display_source_node
       for_each svc_other svc_ok read_files http_get_json shell_effect load_data
       lib_raises retrieve_nodes query_response env fs trace out snd].
  reflexivity.
Qed.

(** C6: what the notebooks display is not determined by the local inputs.
    From any local state the first notebook displays different nodes in two
    worlds that differ only in what the embedding service makes the
    retriever return; and there is a local state from which the second
    notebook prints different answers in two worlds that differ only in the
    answers of the LLM service. *)
Theorem outputs_depend_on_services :
  (∀ st, ∃ svc svc',
     same_local_world svc svc' ∧
     out (notebook1 svc st).2 ≠ out (notebook1 svc' st).2) ∧
  (∃ st svc svc',
     same_local_world svc svc' ∧
     out (notebook2 svc st).2 ≠ out (notebook2 svc' st).2).
Proof.
  split.
  - intros st. exists svc_ok, svc_other. split; [by repeat split|].
    rewrite notebook1_out_ok, notebook1_out_other.
    intros H. apply app_inv_head in H. discriminate H.
  - exists st0, svc_ok, svc_other. split; [by repeat split|].
    intros H. vm_compute in H. discriminate H.
Qed.

(** * Further properties of the cells *)

(** ** The extraction expression *)

Lemma py_getitem_ok_inv obj key v :
  py_getitem obj key = Ok v ↔ ∃ items, obj = JObj items ∧ dict_get items key = Some v.
Proof.
  split.
  - destruct obj; simpl; try discriminate.
    destruct (dict_get items key) eqn:Hget; intros; simplify_eq. eauto.
  - intros (items & -> & Hget). simpl. by rewrite Hget.
Qed.

(** The extraction succeeds exactly on a reply that is a dict whose ["query"]
    is a dict whose ["pages"] is a non-empty dict whose first value is a dict
    with the key ["extract"]; the result is that entry, whatever the other
    pages and fields are. *)
Theorem first_page_extract_ok_iff response v :
  first_page_extract response = Ok v ↔
  ∃ items query_items page_key page_items other_pages,
    response = JObj items ∧
    dict_get items "query" = Some (JObj query_items) ∧
    dict_get query_items "pages"
      = Some (JObj ((page_key, JObj page_items) :: other_pages)) ∧
    dict_get page_items "extract" = Some v.
Proof.
  unfold first_page_extract. split.
  - destruct (py_getitem response "query") as [q|] eqn:Hq; [|discriminate].
    destruct (py_getitem q "pages") as [pages|] eqn:Hp; [|discriminate].
    destruct (py_values pages) as [vals|] eqn:Hv; [|discriminate].
    destruct (py_next vals) as [page|] eqn:Hn; [|discriminate].
    intros He.
    apply py_getitem_ok_inv in Hq as (items & -> & Hq).
    apply py_getitem_ok_inv in Hp as (query_items & -> & Hp).
    apply py_getitem_ok_inv in He as (page_items & -> & He).
    destruct pages; simpl in Hv; try discriminate. injection Hv as <-.
    destruct items0 as [|[k p] rest]; simpl in Hn; [discriminate|].
    injection Hn as ->.
    exists items, query_items, k, page_items, rest. done.
  - intros (items & query_items & k & page_items & rest & -> & Hq & Hp & He).
    simpl. rewrite Hq. simpl. rewrite Hp. simpl. by rewrite He.
Qed.

Lemma first_page_extract_raise_cases response e :
  first_page_extract response = Raise e → e ∈ extraction_errors.
Proof.
  unfold first_page_extract, extraction_errors.
  assert (Hget : ∀ obj key v, py_getitem obj key = Raise v → v = KeyError key ∨ v = TypeError).
  { intros obj key v. destruct obj; simpl; try (intros [= <-]; by right).
    destruct (dict_get items key); intros [= <-]. by left. }
  destruct (py_getitem response "query") as [q|x] eqn:Hq.
  2: { intros [= <-]. apply Hget in Hq as [-> | ->]; set_solver. }
  destruct (py_getitem q "pages") as [pages|x] eqn:Hp.
  2: { intros [= <-]. apply Hget in Hp as [-> | ->]; set_solver. }
  destruct (py_values pages) as [vals|x] eqn:Hv.
  2: { intros [= <-]. destruct pages; simpl in Hv; simplify_eq; set_solver. }
  destruct (py_next vals) as [page|x] eqn:Hn.
  2: { intros [= <-]. destruct vals; simpl in Hn; simplify_eq; set_solver. }
  intros He. apply Hget in He as [-> | ->]; set_solver.
Qed.

(** When the extraction fails it raises a [KeyError] on one of the three
    keys, a [TypeError], an [AttributeError] or [StopIteration], nothing
    else. *)
Theorem first_page_extract_raises response e :
  first_page_extract response = Raise e → e ∈ extraction_errors.
Proof. apply first_page_extract_raise_cases. Qed.

Lemma first_page_extract_raises_witness :
  first_page_extract (JObj [("query", JArr [])]) = Raise TypeError ∧
  TypeError ∈ extraction_errors.
Proof.
  split; [reflexivity|].
  exact (first_page_extract_raises (JObj [("query", JArr [])]) TypeError eq_refl).
Defined.

(** ** Edge cases of one round of the download loop *)

Lemma bind_raise_inv {A B} (m : M A) (f : A → M B) st e st' :
  bind m f st = (Raise e, st') →
  m st = (Raise e, st') ∨ ∃ a s1, m st = (Ok a, s1) ∧ f a s1 = (Raise e, st').
Proof.
  unfold bind. destruct (m st) as [[a|x] s1]; intros H; [right; eauto | left; by simplify_eq].
Qed.

Lemma path_mkdir_data_run st :
  is_dir (fs st) "data" || is_file (fs st) "data" = false →
  path_mkdir "data" st =
    (Ok tt, with_fs (add_events st [EvMkdir "data"])
              (mkFS ({["data"]} ∪ dirs (fs st)) (files (fs st)))).
Proof.
  intros H. unfold path_mkdir, bind, emit, get_fs, put_fs, raise. cbn [fs].
  rewrite H. reflexivity.
Qed.

(** The state in which the file of a title is opened: the request is logged,
    and [data] was created when nothing of that name existed. *)
Lemma download_title_upto_open svc t wiki_text st :
  fetch_extract svc t = Ok wiki_text →
  ∃ s, download_title svc t st
         = (open_w (title_path t) ;; fp_write (title_path t) wiki_text) s ∧
       out s = out st ∧ env s = env st ∧ files (fs s) = files (fs st) ∧
       (if is_dir (fs st) "data" || is_file (fs st) "data"
        then fs s = fs st ∧ trace s = trace st ++ [EvHttpGet wiki_url (wiki_params t)]
        else dirs (fs s) = {["data"]} ∪ dirs (fs st) ∧
             trace s = trace st ++ [EvHttpGet wiki_url (wiki_params t); EvMkdir "data"]).
Proof.
  unfold fetch_extract, download_title. fold (title_path t). intros H.
  destruct (http_get_json svc wiki_url (wiki_params t)) as [response|] eqn:Hget;
    [|discriminate].
  unfold bind at 1. rewrite requests_get_json_run, Hget.
  unfold bind at 1. rewrite lift_run, H.
  unfold bind at 1. rewrite path_exists_run. cbn [fs add_events].
  destruct (is_dir (fs st) "data" || is_file (fs st) "data") eqn:Hex.
  - unfold bind at 1. unfold ret at 1. eexists. split; [reflexivity|]. done.
  - unfold bind at 1. rewrite path_mkdir_data_run by done.
    eexists. split; [reflexivity|]. cbn [fs env trace out add_events with_fs dirs files].
    repeat split. by rewrite <- app_assoc.
Qed.

Lemma open_w_raise_inv p st e st' :
  open_w p st = (Raise e, st') →
  e ∈ [IsADirectoryError p; NotADirectoryError p; FileNotFoundError p].
Proof.
  unfold open_w, bind, emit, get_fs, put_fs, raise. cbn [fs].
  repeat case_match; intros; simplify_eq; set_solver.
Qed.

Lemma fp_write_raise_inv p data st e st' :
  fp_write p data st = (Raise e, st') → e = TypeError ∧ is_str data = false.
Proof.
  unfold fp_write, bind, emit, get_fs, put_fs, raise.
  destruct data; intros; by simplify_eq.
Qed.

Lemma download_title_raise_cases svc t st e st' :
  download_title svc t st = (Raise e, st') →
  fetch_extract svc t = Raise e ∨
  (∃ v, fetch_extract svc t = Ok v ∧ is_str v = false ∧ e = TypeError) ∨
  e ∈ [IsADirectoryError (title_path t); NotADirectoryError (title_path t);
       FileNotFoundError (title_path t)].
Proof.
  intros H. destruct (fetch_extract svc t) as [v|x] eqn:Hfetch.
  - right. destruct (download_title_upto_open svc t v st Hfetch) as (s & Hrun & _).
    rewrite Hrun in H. apply bind_raise_inv in H as [H | ([] & s1 & _ & H)].
    + right. by apply open_w_raise_inv in H.
    + left. apply fp_write_raise_inv in H as [-> ?]. by exists v.
  - left. rewrite (download_title_fetch_fails svc t x st Hfetch) in H. by simplify_eq.
Qed.



(** An extract that is not a string (a JSON [null], number, list or object)
    makes [fp.write] raise [TypeError] after [open(..., "w")] has created or
    truncated the file: the title's file is left empty, its former content
    is lost, and no other file changes. *)
Theorem non_string_extract_empties_file svc t v st :
  has_slash t = false →
  fetch_extract svc t = Ok v →
  is_str v = false →
  is_file (fs st) "data" = false →
  title_file t ∉ dirs (fs st) →
  (download_title svc t st).1 = Raise TypeError ∧
  files (fs (download_title svc t st).2) = <[title_file t := ""]> (files (fs st)).
Proof.
  intros Hs Hfetch Hv Hdata Hnd.
  destruct (download_title_upto_open svc t v st Hfetch) as (s & -> & _ & _ & Hfiles & Hfs).
  rewrite (title_path_file t Hs).
  assert (Hdir : "data" ∈ dirs (fs s) ∧ title_file t ∉ dirs (fs s)).
  { rewrite Hdata, orb_false_r, is_dir_data in Hfs. case_bool_decide as Hin.
    - destruct Hfs as [-> _]. done.
    - destruct Hfs as [-> _]. pose proof (title_file_not_data t). set_solver. }
  destruct Hdir as [Hin Hnin].
  unfold bind. rewrite open_w_ok; cycle 1.
  { rewrite is_dir_title_file. by apply bool_decide_eq_false_2. }
  { rewrite parent_title_file by done. rewrite is_dir_data. by apply bool_decide_eq_true_2. }
  unfold fp_write, bind, emit, get_fs, put_fs, raise.
  destruct v; try discriminate; cbn [fst snd fs files with_fs add_events]; by rewrite Hfiles.
Qed.

Lemma non_string_extract_empties_file_witness :
  (download_title svc_null "Boston" st_old).1 = Raise TypeError ∧
  files (fs (download_title svc_null "Boston" st_old).2)
    = <[title_file "Boston" := ""]> (files (fs st_old)).
Proof.
  apply (non_string_extract_empties_file svc_null "Boston" JNull st_old).
  - reflexivity.
  - reflexivity.
  - reflexivity.
  - vm_compute. reflexivity.
  - vm_compute. intros H. discriminate H.
Defined.

(** When [data] exists but is a regular file, [data_path.exists()] holds, no
    directory is made, and [open] raises [NotADirectoryError]: the request
    was issued, nothing is written and the disk is as before. *)
Theorem data_is_a_regular_file svc t wiki_text st :
  has_slash t = false →
  fetch_extract svc t = Ok wiki_text →
  is_file (fs st) "data" = true →
  "data" ∉ dirs (fs st) →
  title_file t ∉ dirs (fs st) →
  download_title svc t st
    = (Raise (NotADirectoryError (title_file t)),
       add_events st [EvHttpGet wiki_url (wiki_params t); EvOpenW (title_file t)]).
Proof.
  intros Hs Hfetch Hfile Hnd Hnt.
  destruct (download_title_upto_open svc t wiki_text st Hfetch)
    as (s & -> & Ho & He & _ & Hfs).
  rewrite Hfile, orb_true_r in Hfs. destruct Hfs as [Hfs Htr].
  rewrite (title_path_file t Hs).
  apply bind_raise.
  unfold open_w, bind, emit, get_fs, put_fs, raise. cbn [fs].
  rewrite Hfs, is_dir_title_file, bool_decide_eq_false_2 by done.
  rewrite parent_title_file by done.
  rewrite is_dir_data, bool_decide_eq_false_2 by done. rewrite Hfile.
  f_equal. unfold add_events. cbn [env fs trace out]. rewrite Htr, He, Ho.
  by rewrite <- app_assoc.
Qed.

Lemma data_is_a_regular_file_witness :
  download_title svc_ok "Boston" st_data_file
    = (Raise (NotADirectoryError (title_file "Boston")),
       add_events st_data_file
         [EvHttpGet wiki_url (wiki_params "Boston"); EvOpenW (title_file "Boston")]).
Proof.
  apply (data_is_a_regular_file svc_ok "Boston" (JStr "About Boston") st_data_file).
  - reflexivity.
  - reflexivity.
  - vm_compute. reflexivity.
  - vm_compute. intros H. discriminate H.
  - vm_compute. intros H. discriminate H.
Defined.

(** ** How the loops of the second notebook fit together *)

(** The loading loop reads the files the download loop wrote.  For any list
    of titles without a slash (empty, or with repeats), after both loops have
    completed every title's entry of [city_docs] is what the reader returned
    for [data/{title}.txt] on a disk where that file holds the extract
    fetched for the title. *)
Theorem load_reads_what_download_wrote svc titles st st1 city_docs st2 :
  Forall (λ t, has_slash t = false) titles →
  download_loop svc titles st = (Ok tt, st1) →
  load_loop svc titles st1 = (Ok city_docs, st2) →
  fs st2 = fs st1 ∧
  dom city_docs = list_to_set titles ∧
  ∀ t, t ∈ titles →
    ∃ text docs,
      fetch_extract svc t = Ok (JStr text) ∧
      title_path t = title_file t ∧
      files (fs st1) !! title_file t = Some text ∧
      load_data svc (SimpleDirectoryReader_files [title_file t]) (fs st1) = Ok docs ∧
      city_docs !! t = Some docs.
Proof.
  intros Hs Hdown Hload.
  apply (download_loop_ok svc titles Hs) in Hdown as (_ & _ & _ & Hfiles & _ & _).
  unfold load_loop in Hload.
  apply load_loop_ok in Hload as (-> & Hdom & Hdocs & _).
  split; [done|]. split; [rewrite Hdom, dom_empty_L; set_solver|].
  intros t Hin.
  destruct (Hfiles t Hin) as (response & text & Hget & Hex & Hfile & _).
  destruct (Hdocs t Hin) as (docs & Hload & Hlook).
  exists text, docs. unfold fetch_extract. rewrite Hget, Hex. repeat split; try done.
  apply title_path_file. by apply (proj1 (Forall_forall _ _) Hs).
Qed.

Lemma load_reads_what_download_wrote_witness :
  ∃ text docs,
    fetch_extract svc_ok "Seattle" = Ok (JStr text) ∧
    title_path "Seattle" = title_file "Seattle" ∧
    files (fs (download_loop svc_ok ["Seattle"; "Seattle"] st0).2) !! title_file "Seattle"
      = Some text ∧
    load_data svc_ok (SimpleDirectoryReader_files [title_file "Seattle"])
      (fs (download_loop svc_ok ["Seattle"; "Seattle"] st0).2) = Ok docs ∧
    value_or (∅ : gmap string (list Document))
      (load_loop svc_ok ["Seattle"; "Seattle"]
         (download_loop svc_ok ["Seattle"; "Seattle"] st0).2).1 !! "Seattle" = Some docs.
Proof.
  refine (proj2 (proj2 (load_reads_what_download_wrote svc_ok ["Seattle"; "Seattle"] st0
    (download_loop svc_ok ["Seattle"; "Seattle"] st0).2
    (value_or (∅ : gmap string (list Document))
       (load_loop svc_ok ["Seattle"; "Seattle"]
          (download_loop svc_ok ["Seattle"; "Seattle"] st0).2).1)
    (load_loop svc_ok ["Seattle"; "Seattle"]
       (download_loop svc_ok ["Seattle"; "Seattle"] st0).2).2 _ _ _)) "Seattle" _).
  - repeat constructor.
  - vm_compute. reflexivity.
  - vm_compute. reflexivity.
  - set_solver.
Defined.

Lemma for_fold_app {A B} (l1 l2 : list A) (acc acc1 : B) (body : B → A → M B) st st1 :
  for_fold l1 acc body st = (Ok acc1, st1) →
  for_fold (l1 ++ l2) acc body st = for_fold l2 acc1 body st1.
Proof.
  revert acc st. induction l1 as [|x l1 IH]; intros acc st H; simpl in *.
  - apply ret_ok_inv in H as [-> ->]. done.
  - apply bind_ok_inv in H as (acc' & s & Hx & Hl). rewrite (bind_ok _ _ _ _ _ Hx). eauto.
Qed.

(** A title without an entry in the dictionary a loop reads stops that loop
    with [KeyError(title)] before any library call for the title: the agent
    loop on [city_docs[wiki_title]], the loop over the top-level nodes on
    [agents[wiki_title]].  The titles before it were processed; the state is
    the one they left. *)
Theorem missing_title_raises_key_error svc done t rest st st1 :
  (∀ city_docs service_context agents1,
     agents_loop svc done city_docs service_context st = (Ok agents1, st1) →
     city_docs !! t = None →
     agents_loop svc (done ++ t :: rest) city_docs service_context st
       = (Raise (KeyError t), st1)) ∧
  (∀ agents objects1,
     objects_loop svc done agents st = (Ok objects1, st1) →
     agents !! t = None →
     objects_loop svc (done ++ t :: rest) agents st = (Raise (KeyError t), st1)).
Proof.
  split.
  - unfold agents_loop. intros city_docs sc agents1 Hdone Hmiss.
    rewrite (for_fold_app _ _ _ _ _ _ _ Hdone). simpl.
    apply bind_raise. unfold build_agent. apply bind_raise.
    unfold py_dict_get. by rewrite Hmiss.
  - unfold objects_loop. intros agents objects1 Hdone Hmiss.
    rewrite (for_fold_app _ _ _ _ _ _ _ Hdone). simpl.
    apply bind_raise. unfold build_object. apply bind_raise.
    unfold py_dict_get. by rewrite Hmiss.
Qed.

Lemma missing_title_raises_key_error_witness :
  agents_loop svc_ok (["Toronto"] ++ "Paris" :: ["Boston"]) city_docs_ok
    service_context_ok st0
    = (Raise (KeyError "Paris"),
       (agents_loop svc_ok ["Toronto"] city_docs_ok service_context_ok st0).2) ∧
  objects_loop svc_ok (["Toronto"] ++ "Paris" :: ["Boston"]) agents_ok st0
    = (Raise (KeyError "Paris"), (objects_loop svc_ok ["Toronto"] agents_ok st0).2).
Proof.
  split.
  - refine (proj1 (missing_title_raises_key_error svc_ok ["Toronto"] "Paris" ["Boston"]
      st0 (agents_loop svc_ok ["Toronto"] city_docs_ok service_context_ok st0).2)
      city_docs_ok service_context_ok
      (value_or (∅ : gmap string Agent)
         (agents_loop svc_ok ["Toronto"] city_docs_ok service_context_ok st0).1) _ _).
    + vm_compute. reflexivity.
    + vm_compute. reflexivity.
  - refine (proj2 (missing_title_raises_key_error svc_ok ["Toronto"] "Paris" ["Boston"]
      st0 (objects_loop svc_ok ["Toronto"] agents_ok st0).2)
      agents_ok
      (value_or [] (objects_loop svc_ok ["Toronto"] agents_ok st0).1) _ _).
    + vm_compute. reflexivity.
    + vm_compute. reflexivity.
Defined.

(** ** Where the exceptions of the later loops come from *)

Lemma raises_only_ret {A} (P : Exn → Prop) (a : A) : raises_only P (ret a).
Proof. intros st e st' H. discriminate H. Qed.

Lemma raises_only_bind {A B} (P : Exn → Prop) (m : M A) (f : A → M B) :
  raises_only P m → (∀ a, raises_only P (f a)) → raises_only P (bind m f).
Proof.
  intros Hm Hf st e st' H.
  apply bind_raise_inv in H as [H | (a & s1 & _ & H)]; [by eapply Hm | by eapply Hf].
Qed.

Lemma raises_only_lib svc c : raises_only (from_library svc) (lib svc c).
Proof.
  intros st e st'. unfold lib, bind, emit, get_env, raise, ret. cbn [env].
  destruct (lib_raises svc (env st) c) as [x|] eqn:Hc; intros H; simplify_eq.
  by exists (env st), c.
Qed.

Lemma raises_only_py_dict_get {V} (P : Exn → Prop) (d : gmap string V) k :
  is_Some (d !! k) → raises_only P (py_dict_get d k).
Proof. intros [v Hv]. unfold py_dict_get. rewrite Hv. apply raises_only_ret. Qed.

Lemma raises_only_for_fold {A B} (P : Exn → Prop) (l : list A) (body : B → A → M B) :
  (∀ acc x, x ∈ l → raises_only P (body acc x)) →
  ∀ acc, raises_only P (for_fold l acc body).
Proof.
  induction l as [|x l IH]; intros Hb acc; simpl.
  - apply raises_only_ret.
  - apply raises_only_bind; [apply Hb; set_solver|].
    intros acc'. apply IH. intros ???. apply Hb. set_solver.
Qed.

Ltac raises_walk :=
  repeat lazymatch goal with
    | |- raises_only _ (bind _ _) => apply raises_only_bind; [| intros ?]
    | |- raises_only _ (ret _) => apply raises_only_ret
    | |- raises_only _ (lib _ _) => apply raises_only_lib
    | |- raises_only _ (py_dict_get _ _) => apply raises_only_py_dict_get
    | |- raises_only _ _ => progress unfold_calls
    end.

Lemma agents_loop_raises_library svc titles st city_docs st1 service_context st2 e st3 :
  load_loop svc titles st = (Ok city_docs, st1) →
  agents_loop svc titles city_docs service_context st2 = (Raise e, st3) →
  from_library svc e.
Proof.
  intros Hload Hrun. unfold load_loop in Hload.
  apply load_loop_ok in Hload as (_ & _ & Hdocs & _).
  revert Hrun. unfold agents_loop. apply raises_only_for_fold.
  intros acc t Hin. destruct (Hdocs t Hin) as (docs & _ & Hlook).
  raises_walk; by exists docs.
Qed.

Lemma objects_loop_raises_library svc titles city_docs service_context st agents st1 st2 e st3 :
  agents_loop svc titles city_docs service_context st = (Ok agents, st1) →
  objects_loop svc titles agents st2 = (Raise e, st3) →
  from_library svc e.
Proof.
  intros Hag Hrun. unfold agents_loop in Hag.
  apply agents_loop_ok in Hag as (_ & Hall & _).
  revert Hrun. unfold objects_loop. apply raises_only_for_fold.
  intros acc t Hin. destruct (Hall t Hin) as (docs & _ & Hlook).
  raises_walk. by eexists.
Qed.

(** In the second notebook the dictionary lookups of the later loops cannot
    fail: once the loading loop has filled [city_docs] for a list of titles,
    whatever the agent loop over the same titles raises was raised by a
    library call, and once the agent loop has filled [agents], whatever the
    loop over the top-level nodes raises was raised by a library call. *)
Theorem later_loops_raise_only_library_errors svc titles :
  (∀ st city_docs st1 service_context st2 e st3,
     load_loop svc titles st = (Ok city_docs, st1) →
     agents_loop svc titles city_docs service_context st2 = (Raise e, st3) →
     from_library svc e) ∧
  (∀ city_docs service_context st agents st1 st2 e st3,
     agents_loop svc titles city_docs service_context st = (Ok agents, st1) →
     objects_loop svc titles agents st2 = (Raise e, st3) →
     from_library svc e).
Proof.
  split.
  - intros. by eapply agents_loop_raises_library.
  - intros. by eapply objects_loop_raises_library.
Qed.

Lemma later_loops_raise_only_library_errors_witness :
  (agents_loop svc_rejects wiki_titles
     (value_or (∅ : gmap string (list Document))
        (load_loop svc_rejects wiki_titles (download_loop svc_rejects wiki_titles st0).2).1)
     service_context_ok st0).1 = Raise (ExternalError "AuthenticationError") ∧
  from_library svc_rejects (ExternalError "AuthenticationError").
Proof.
  assert (H : agents_loop svc_rejects wiki_titles
     (value_or (∅ : gmap string (list Document))
        (load_loop svc_rejects wiki_titles (download_loop svc_rejects wiki_titles st0).2).1)
     service_context_ok st0
     = (Raise (ExternalError "AuthenticationError"),
        (agents_loop svc_rejects wiki_titles
           (value_or (∅ : gmap string (list Document))
              (load_loop svc_rejects wiki_titles
                 (download_loop svc_rejects wiki_titles st0).2).1)
           service_context_ok st0).2)) by (vm_compute; reflexivity).
  split; [exact (f_equal fst H)|].
  refine (proj1 (later_loops_raise_only_library_errors svc_rejects wiki_titles)
    (download_loop svc_rejects wiki_titles st0).2 _
    (load_loop svc_rejects wiki_titles (download_loop svc_rejects wiki_titles st0).2).2
    service_context_ok st0 _ _ _ H).
  vm_compute. reflexivity.
Defined.

(** Every top-level node links the document agent of its title.  For any
    list of titles (repeats included: the dictionary has one agent per
    distinct title, the list one node per entry), after the agent loop and
    the loop over the nodes the n-th node carries the n-th title as
    [index_id], the summary text of that title, and as [obj] the agent built
    from that title's documents. *)
Theorem every_node_links_its_document_agent
    svc titles city_docs service_context st agents st1 st2 objects st3 :
  agents_loop svc titles city_docs service_context st = (Ok agents, st1) →
  objects_loop svc titles agents st2 = (Ok objects, st3) →
  dom agents = list_to_set titles ∧
  index_id_of <$> objects = titles ∧
  Forall2 (λ title node,
             ∃ docs, city_docs !! title = Some docs ∧
                     node = mkIndexNode (wiki_summary title) title
                              (document_agent title docs service_context))
    titles objects.
Proof.
  unfold agents_loop, objects_loop. intros Hag Hobj.
  apply agents_loop_ok in Hag as (Hdom & Hall & _).
  apply objects_loop_ok in Hobj as (new & -> & Hnew). rewrite app_nil_l.
  split; [rewrite Hdom, dom_empty_L; set_solver|].
  split.
  - clear -Hnew. induction Hnew as [|t n ts ns (Hid & _ & _) _ IH]; [done|].
    rewrite fmap_cons, Hid. by f_equal.
  - apply Forall2_same_length_lookup. split; [by eapply Forall2_length|].
    intros i t n Ht Hn.
    destruct (Forall2_lookup_lr _ _ _ _ _ _ Hnew Ht Hn) as (Hid & Htext & Hobj).
    destruct (Hall t) as (docs & Hdocs & Hagent); [by eapply list_elem_of_lookup_2|].
    exists docs. split; [done|].
    destruct n as [text id obj]. simpl in *. congruence.
Qed.

Lemma every_node_links_its_document_agent_witness :
  index_id_of <$>
    value_or []
      (objects_loop svc_ok ["Boston"; "Boston"]
         (value_or (∅ : gmap string Agent)
            (agents_loop svc_ok ["Boston"; "Boston"] city_docs_ok service_context_ok st0).1)
         st0).1
    = ["Boston"; "Boston"].
Proof.
  refine (proj1 (proj2 (every_node_links_its_document_agent svc_ok ["Boston"; "Boston"]
    city_docs_ok service_context_ok st0
    (value_or (∅ : gmap string Agent)
       (agents_loop svc_ok ["Boston"; "Boston"] city_docs_ok service_context_ok st0).1)
    (agents_loop svc_ok ["Boston"; "Boston"] city_docs_ok service_context_ok st0).2
    st0 _
    (objects_loop svc_ok ["Boston"; "Boston"]
       (value_or (∅ : gmap string Agent)
          (agents_loop svc_ok ["Boston"; "Boston"] city_docs_ok service_context_ok st0).1)
       st0).2 _ _))).
  - vm_compute. reflexivity.
  - vm_compute. reflexivity.
Defined.

(** ** The first notebook, end to end *)

Lemma shell_run svc cmd st :
  shell svc cmd st
    = (Ok tt, with_fs (add_events st [EvShell cmd]) (shell_effect svc cmd (fs st))).
Proof. reflexivity. Qed.

Lemma logging_call_run c st : logging_call c st = (Ok tt, add_events st [EvLogging c]).
Proof. reflexivity. Qed.

Lemma reader_load_data_run svc r st :
  reader_load_data svc r st = (load_data svc r (fs st), add_events st [EvLoadData r]).
Proof. reflexivity. Qed.

Lemma retrieve_run svc r q st :
  retrieve svc r q st
    = (retrieve_nodes svc (env st) r q, add_events st [EvLib (CallRetrieve r q)]).
Proof. reflexivity. Qed.

Lemma query_run svc e q st :
  query svc e q st = (query_response svc (env st) e q, add_events st [EvLib (CallQuery e q)]).
Proof. reflexivity. Qed.

Lemma print_run r st :
  print r st
    = (Ok tt, mkState (env st) (fs st) (trace st ++ [EvPrint (response_text r)])
                (out st ++ [OutText (response_text r)])).
Proof. reflexivity. Qed.

Lemma display_source_node_ok_inv svc n len st st' :
  display_source_node svc n len st = (Ok tt, st') →
  env st' = env st ∧ fs st' = fs st ∧ out st' = out st ++ [OutSourceNode n len].
Proof.
  unfold display_source_node. intros H.
  apply bind_ok_inv in H as ([] & s & H1 & H2).
  apply lib_ok_inv in H1 as [_ ->]. unfold display in H2. by simplify_eq.
Qed.

Lemma display_loop_ok svc nodes :
  ∀ st st',
    for_each nodes (λ n, display_source_node svc n 2000%Z) st = (Ok tt, st') →
    env st' = env st ∧ fs st' = fs st ∧ out st' = out st ++ displayed nodes.
Proof.
  induction nodes as [|n nodes IH]; intros st st' H; simpl in H.
  - apply ret_ok_inv in H as [_ ->]. unfold displayed. by rewrite app_nil_r.
  - apply bind_ok_inv in H as ([] & s & H1 & H2).
    apply display_source_node_ok_inv in H1 as (He & Hf & Ho).
    apply IH in H2 as (He' & Hf' & Ho').
    repeat split; [congruence | congruence |].
    rewrite Ho', Ho. unfold displayed. by rewrite fmap_cons, <- app_assoc.
Qed.

Lemma notebook1_index_ok_inv svc st r st1 :
  notebook1_index svc st = (Ok r, st1) →
  ∃ documents,
    load_data svc (SimpleDirectoryReader_dir "./data/paul_graham/")
      (essay_disk svc (fs st)) = Ok documents ∧
    r = nomic_retriever documents ∧
    env st1 = <["OPENAI_API_KEY" := "<OPENAI_API_KEY>"]> (env st) ∧
    fs st1 = essay_disk svc (fs st) ∧
    out st1 = out st.
Proof.
  unfold notebook1_index, new_embed_model, new_service_context, new_index, new_retriever.
  intros H.
  apply bind_ok_inv in H as ([] & sa & Ha & H).
  rewrite os_environ_set_run in Ha. injection Ha as <-.
  apply bind_ok_inv in H as ([] & sb & Hb & H).
  rewrite logging_call_run in Hb. injection Hb as <-.
  apply bind_ok_inv in H as ([] & sc & Hc & H).
  rewrite logging_call_run in Hc. injection Hc as <-.
  apply bind_ok_inv in H as ([] & sd & Hd & H).
  rewrite shell_run in Hd. injection Hd as <-.
  apply bind_ok_inv in H as ([] & se & He & H).
  rewrite shell_run in He. injection He as <-.
  apply bind_ok_inv in H as (documents & sf & Hf & H).
  rewrite reader_load_data_run in Hf. injection Hf as Hf <-.
  apply bind_ok_inv in H as (embed_model & sg & Hg & H).
  apply lib_ret_ok_inv in Hg as [-> ->].
  apply bind_ok_inv in H as (service_context & sh & Hh & H).
  apply lib_ret_ok_inv in Hh as [-> ->].
  apply bind_ok_inv in H as (index & si & Hi & H).
  apply lib_ret_ok_inv in Hi as [-> ->].
  apply lib_ret_ok_inv in H as [-> ->].
  exists documents. done.
Qed.



(** ** What the notebooks can raise *)

Lemma raises_only_impl {A} (P Q : Exn → Prop) (m : M A) :
  (∀ e, P e → Q e) → raises_only P m → raises_only Q m.
Proof. intros HPQ Hm st e st' H. apply HPQ. by eapply Hm. Qed.

Lemma raises_only_for_each {A} (P : Exn → Prop) (l : list A) (body : A → M unit) :
  (∀ x, x ∈ l → raises_only P (body x)) → raises_only P (for_each l body).
Proof.
  induction l as [|x l IH]; intros Hb; simpl.
  - apply raises_only_ret.
  - apply raises_only_bind; [apply Hb; set_solver|].
    intros _. apply IH. intros ??. apply Hb. set_solver.
Qed.

Lemma raises_only_never {A} (P : Exn → Prop) (m : M A) :
  (∀ st, is_ok (m st).1 = true) → raises_only P m.
Proof. intros Hm st e st' H. specialize (Hm st). by rewrite H in Hm. Qed.

Lemma raises_only_run {A} (P : Exn → Prop) (m : M A) st e st' :
  raises_only P m → m st = (Raise e, st') → P e.
Proof. intros H. apply H. Qed.

Lemma raises_only_external_lib svc c : raises_only (external_failure svc) (lib svc c).
Proof.
  eapply raises_only_impl; [|apply raises_only_lib].
  intros e He. right. right. by left.
Qed.

Lemma raises_only_reader svc r : raises_only (external_failure svc) (reader_load_data svc r).
Proof.
  intros st e st' H. rewrite reader_load_data_run in H. injection H as H _.
  right. left. eauto.
Qed.

Lemma raises_only_retrieve svc r q : raises_only (external_failure svc) (retrieve svc r q).
Proof.
  intros st e st' H. rewrite retrieve_run in H. injection H as H _.
  right. right. right. left. eauto.
Qed.

Lemma raises_only_query svc qe q : raises_only (external_failure svc) (query svc qe q).
Proof.
  intros st e st' H. rewrite query_run in H. injection H as H _.
  right. right. right. right. eauto.
Qed.

Ltac external_walk :=
  repeat lazymatch goal with
    | |- raises_only _ (bind _ _) => apply raises_only_bind; [| intros ?]
    | |- raises_only _ (ret _) => apply raises_only_ret
    | |- raises_only _ (for_each _ _) => apply raises_only_for_each; intros ? _
    | |- raises_only _ (lib _ _) => apply raises_only_external_lib
    | |- raises_only _ (reader_load_data _ _) => apply raises_only_reader
    | |- raises_only _ (retrieve _ _ _) => apply raises_only_retrieve
    | |- raises_only _ (query _ _ _) => apply raises_only_query
    | |- raises_only _ (os_environ_set _ _) => apply raises_only_never; reflexivity
    | |- raises_only _ (logging_call _) => apply raises_only_never; reflexivity
    | |- raises_only _ (shell _ _) => apply raises_only_never; reflexivity
    | |- raises_only _ (display _) => apply raises_only_never; reflexivity
    | |- raises_only _ (print _) => apply raises_only_never; reflexivity
    | |- raises_only _ _ => progress unfold_calls
    end.

Lemma notebook1_raises_external svc : raises_only (external_failure svc) (notebook1 svc).
Proof. unfold notebook1, notebook1_index, notebook1_retrieve. external_walk. Qed.

Lemma download_loop_raises svc titles st e st' :
  download_loop svc titles st = (Raise e, st') →
  external_failure svc e ∨ e ∈ extraction_errors ∨
  ∃ title, title ∈ titles ∧ e ∈ open_errors (title_path title).
Proof.
  unfold download_loop. revert st.
  induction titles as [|t titles IH]; intros st H; simpl in H; [discriminate|].
  apply bind_raise_inv in H as [H | ([] & s1 & _ & H)].
  - apply download_title_raise_cases in H as [H | [(v & _ & _ & ->) | H]].
    + unfold fetch_extract in H.
      destruct (http_get_json svc wiki_url (wiki_params t)) as [response|x] eqn:Hget.
      * right. left. by eapply first_page_extract_raise_cases.
      * left. left. simplify_eq. eauto.
    + right. left. unfold extraction_errors. set_solver.
    + right. right. exists t. split; [set_solver | done].
  - apply IH in H as [H | [H | (title & Hin & H)]]; [by left | by right; left |].
    right. right. exists title. split; [set_solver | done].
Qed.



(** ** The second notebook, end to end *)

Global Instance only_log_preorder : PreOrder only_log.
Proof.
  split.
  - by intros st.
  - intros s1 s2 s3 (E1 & F1 & O1) (E2 & F2 & O2). repeat split; congruence.
Qed.

Lemma only_log_lib svc c : steps only_log (lib svc c).
Proof.
  intros st. unfold lib, bind, emit, get_env, raise, ret. cbn [env].
  by destruct (lib_raises svc (env st) c).
Qed.

Ltac log_walk :=
  repeat lazymatch goal with
    | |- steps _ (bind _ _) => apply steps_bind; [tc_solve | | intros ?]
    | |- steps _ (ret _) => apply steps_ret; tc_solve
    | |- steps _ (py_dict_get _ _) => apply steps_py_dict_get; tc_solve
    | |- steps _ (for_fold _ _ _) => apply steps_for_fold; [tc_solve | intros ? ?]
    | |- steps _ (lib _ _) => apply only_log_lib
    | |- steps _ _ => progress unfold_calls
    end.

Lemma agents_loop_only_log svc titles city_docs service_context :
  steps only_log (agents_loop svc titles city_docs service_context).
Proof. log_walk. Qed.

Lemma objects_loop_only_log svc titles agents :
  steps only_log (objects_loop svc titles agents).
Proof. log_walk. Qed.

Lemma top_level_only_log svc objects service_context :
  steps only_log (top_level svc objects service_context).
Proof. log_walk. Qed.

Lemma run_query_ok_inv svc qe q st st' :
  run_query svc qe q st = (Ok tt, st') →
  ∃ r, query_response svc (env st) qe q = Ok r ∧
       env st' = env st ∧ fs st' = fs st ∧
       out st' = out st ++ [OutText (response_text r)].
Proof.
  unfold run_query. intros H.
  apply bind_ok_inv in H as (r & s & Hq & Hp).
  rewrite query_run in Hq. injection Hq as Hq <-.
  rewrite print_run in Hp. injection Hp as <-.
  exists r. done.
Qed.


